(** * The multi-currency ledger of the shop API: balances, balance
      transactions, conversion rates and conversions.

    Shallow embedding of
      - api/models/balance.py, api/models/conversion.py   (data model),
      - api/service/database_service.py                   (store, lock),
      - api/service/balance_service.py                    (get_balance,
                                                           update_balance,
                                                           history),
      - api/service/conversion_service.py                 (rates, conversion),
      - api/utils/currency_utils.py, platform_utils.py    (validation rules).

    Conventions of the embedding.
      - Python [int] is [Z].  An [int] bound to a parameter of a statement
        has to fit SQLite's 64-bit INTEGER, otherwise sqlite3 raises
        [OverflowError] and the statement is not executed; stored balances
        are taken inside the range in which SQLite integer arithmetic agrees
        with [Z].
      - Python [str] is [string], one [ascii] for each character: texts are
        taken to be ASCII, so that the length in characters is
        [String.length].
      - The SQLite tables are lists of typed rows, in insertion order.  The
        schema is not part of the sources, so no constraint (key, CHECK) is
        assumed, and the store accepts every statement whose parameters it
        can bind.
      - [datetime.now(UTC)] reads a logical clock that advances at each
        reading; [uuid4().hex[:8]] draws from a stream of 32-bit numbers.
      - An [async def] is a computation on the [World]: it returns a value,
        raises an exception or does not return, and the effects performed
        before an exception stay (every write is committed on its own). *)

From Stdlib Require Import ZArith List String Bool Lia DecimalString Sorted.
Import ListNotations.

Local Open Scope string_scope.
Local Open Scope Z_scope.

(** ** api/models/balance.py: enumerations *)

Inductive CurrencyType := WL | DL | BGL | RUPIAH.

Inductive TransactionType :=
  ADD | SUBTRACT | CONVERT | DONATION | PURCHASE | REFUND | ADJUSTMENT.

Inductive TransactionStatus :=
  PENDING | SUCCESS | FAILED | REVERSED | CANCELLED.

(** [CurrencyType.value] *)
Definition CurrencyType_value (c : CurrencyType) : string :=
  match c with
  | WL => "wl"
  | DL => "dl"
  | BGL => "bgl"
  | RUPIAH => "idr"
  end.

Definition TransactionType_value (t : TransactionType) : string :=
  match t with
  | ADD => "add"
  | SUBTRACT => "subtract"
  | CONVERT => "convert"
  | DONATION => "donation"
  | PURCHASE => "purchase"
  | REFUND => "refund"
  | ADJUSTMENT => "adjustment"
  end.

Definition TransactionStatus_value (s : TransactionStatus) : string :=
  match s with
  | PENDING => "pending"
  | SUCCESS => "success"
  | FAILED => "failed"
  | REVERSED => "reversed"
  | CANCELLED => "cancelled"
  end.

Definition CurrencyType_eqb (a b : CurrencyType) : bool :=
  match a, b with
  | WL, WL | DL, DL | BGL, BGL | RUPIAH, RUPIAH => true
  | _, _ => false
  end.

Definition TransactionType_eqb (a b : TransactionType) : bool :=
  match a, b with
  | ADD, ADD | SUBTRACT, SUBTRACT | CONVERT, CONVERT | DONATION, DONATION
  | PURCHASE, PURCHASE | REFUND, REFUND | ADJUSTMENT, ADJUSTMENT => true
  | _, _ => false
  end.

Definition TransactionStatus_eqb (a b : TransactionStatus) : bool :=
  match a, b with
  | PENDING, PENDING | SUCCESS, SUCCESS | FAILED, FAILED
  | REVERSED, REVERSED | CANCELLED, CANCELLED => true
  | _, _ => false
  end.

(** ** Exceptions *)

(** The exceptions the modelled code can raise.  [ValidationError] is the
    one pydantic raises when a model is built from invalid fields; it carries
    the names of the offending fields. *)
Inductive exn :=
| ValidationError (fields : list string)
| ValueError (msg : string)
| TypeError (msg : string)
| AttributeError (msg : string)
| OverflowError (msg : string).

(** ** Rows of the four tables *)

Definition timestamp := Z.

Module UserRow.
Record t := mk {
  id : string;
  user_type : string;
  growid : option string;
  balance_wl : Z;
  balance_dl : Z;
  balance_bgl : Z;
  balance_idr : Z;
  updated_at : timestamp;
  updated_by : string
}.
End UserRow.

Module TxnRow.
(** [id] is the number whose eight hexadecimal digits follow [txn_]. *)
Record t := mk {
  id : N;
  user_id : string;
  user_type : string;
  currency_type : CurrencyType;
  transaction_type : TransactionType;
  amount : Z;
  created_by : string;
  description : option string;
  status : TransactionStatus;
  timestamp : timestamp
}.
End TxnRow.

Module RateRow.
Record t := mk {
  currency : CurrencyType;
  rate_rupiah : Z;
  min_amount : Z;
  max_amount : Z;
  is_active : bool;
  updated_at : timestamp;
  updated_by : string
}.
End RateRow.

Module ConversionRow.
(** [id] is the number whose eight hexadecimal digits follow [conv_]. *)
Record t := mk {
  id : N;
  user_id : string;
  from_currency : CurrencyType;
  to_currency : CurrencyType;
  amount : Z;
  converted_amount : Z;
  rate_used : Z;
  timestamp : timestamp;
  status : string;
  metadata : string
}.
End ConversionRow.

(** ** The SQL statements the services send *)

Inductive Statement :=
| SelectUser (user_id user_type : string)
    (* SELECT ... FROM users WHERE id = ? AND user_type = ? *)
| InsertBalanceTransaction (row : TxnRow.t)
    (* INSERT INTO balance_transactions (...) VALUES (...) *)
| UpdateUserBalance (currency : CurrencyType) (delta : Z)
    (updated_at : timestamp) (updated_by : string) (user_id user_type : string)
    (* UPDATE users SET balance_<c> = balance_<c> + ?, updated_at = ?,
       updated_by = ? WHERE id = ? AND user_type = ? *)
| UpdateTransactionStatus (status : TransactionStatus) (id : N)
    (* UPDATE balance_transactions SET status = ? WHERE id = ? *)
| SelectActiveRate (currency : CurrencyType)
    (* SELECT * FROM conversion_rates WHERE currency = ? AND is_active = 1
       ORDER BY updated_at DESC LIMIT 1 *)
| InsertConversionRate (row : RateRow.t)
    (* INSERT INTO conversion_rates (...) VALUES (...) *)
| InsertConversion (row : ConversionRow.t).
    (* INSERT INTO conversions (...) VALUES (...) *)

Inductive ResultSet :=
| UserRows (rows : list UserRow.t)
| RateRows (rows : list RateRow.t)
| NoRows.

(** What the store and the lock service were asked to do, in order. *)
Inductive Event :=
| EvExecute (query : Statement)
| EvCommit
| EvLockAcquire (name : string).

(** ** The world the services run in *)

Record World := mkWorld {
  users : list UserRow.t;
  balance_transactions : list TxnRow.t;
  conversion_rates : list RateRow.t;
  conversions : list ConversionRow.t;
  clock : timestamp;
  uuid_source : nat -> N;
  uuid_drawn : nat;
  redis_locks : list string;
  log : list Event
}.

Definition set_users (w : World) (us : list UserRow.t) : World :=
  mkWorld us (balance_transactions w) (conversion_rates w) (conversions w)
          (clock w) (uuid_source w) (uuid_drawn w) (redis_locks w) (log w).

Definition set_balance_transactions (w : World) (ts : list TxnRow.t) : World :=
  mkWorld (users w) ts (conversion_rates w) (conversions w)
          (clock w) (uuid_source w) (uuid_drawn w) (redis_locks w) (log w).

Definition set_conversion_rates (w : World) (rs : list RateRow.t) : World :=
  mkWorld (users w) (balance_transactions w) rs (conversions w)
          (clock w) (uuid_source w) (uuid_drawn w) (redis_locks w) (log w).

Definition set_conversions (w : World) (cs : list ConversionRow.t) : World :=
  mkWorld (users w) (balance_transactions w) (conversion_rates w) cs
          (clock w) (uuid_source w) (uuid_drawn w) (redis_locks w) (log w).

Definition set_clock (w : World) (c : timestamp) : World :=
  mkWorld (users w) (balance_transactions w) (conversion_rates w)
          (conversions w) c (uuid_source w) (uuid_drawn w) (redis_locks w)
          (log w).

Definition set_uuid_drawn (w : World) (n : nat) : World :=
  mkWorld (users w) (balance_transactions w) (conversion_rates w)
          (conversions w) (clock w) (uuid_source w) n (redis_locks w) (log w).


Definition emit (e : Event) (w : World) : World :=
  mkWorld (users w) (balance_transactions w) (conversion_rates w)
          (conversions w) (clock w) (uuid_source w) (uuid_drawn w)
          (redis_locks w) (log w ++ [e]).

(** ** Computations: a value, an exception, or no return *)

Inductive result (A : Type) :=
| Ok (a : A)
| Raise (e : exn)
| Blocks.

Arguments Ok {A} a.
Arguments Raise {A} e.
Arguments Blocks {A}.

Definition M (A : Type) : Type := World -> result A * World.

Definition ret {A} (a : A) : M A := fun w => (Ok a, w).

Definition raise {A} (e : exn) : M A := fun w => (Raise e, w).

Definition bind {A B} (m : M A) (k : A -> M B) : M B :=
  fun w =>
    match m w with
    | (Ok a, w') => k a w'
    | (Raise e, w') => (Raise e, w')
    | (Blocks, w') => (Blocks, w')
    end.

(** [try: body except Exception as e: handler] *)
Definition try_except {A} (body : M A) (handler : exn -> M A) : M A :=
  fun w =>
    match body w with
    | (Raise e, w') => handler e w'
    | r => r
    end.

(** A pure construction that may raise (building a pydantic model). *)
Definition lift {A} (r : exn + A) : M A :=
  match r with
  | inl e => raise e
  | inr a => ret a
  end.

Declare Scope py_scope.
Delimit Scope py_scope with py.
Notation "x <- m ;; k" := (bind m (fun x => k))
  (at level 61, m at next level, right associativity) : py_scope.
Notation "m ;;; k" := (bind m (fun _ => k))
  (at level 61, right associativity) : py_scope.
Local Open Scope py_scope.

(** [datetime.now(UTC)] *)
Definition datetime_now : M timestamp :=
  fun w => (Ok (clock w), set_clock w (clock w + 1)).

(** [uuid4().hex[:8]], as a number below 2^32 *)
Definition uuid4_hex8 : M N :=
  fun w => (Ok (uuid_source w (uuid_drawn w) mod 2 ^ 32)%N,
            set_uuid_drawn w (S (uuid_drawn w))).

(** ** api/service/database_service.py *)

Module DatabaseService.

Definition user_matches (user_id user_type : string) (u : UserRow.t) : bool :=
  String.eqb (UserRow.id u) user_id
  && String.eqb (UserRow.user_type u) user_type.

(** [SET balance_<c> = balance_<c> + ?, updated_at = ?, updated_by = ?] *)
Definition add_to_balance (c : CurrencyType) (delta : Z)
    (at_ : timestamp) (by_ : string) (u : UserRow.t) : UserRow.t :=
  match c with
  | WL =>
      UserRow.mk (UserRow.id u) (UserRow.user_type u) (UserRow.growid u)
        (UserRow.balance_wl u + delta) (UserRow.balance_dl u)
        (UserRow.balance_bgl u) (UserRow.balance_idr u) at_ by_
  | DL =>
      UserRow.mk (UserRow.id u) (UserRow.user_type u) (UserRow.growid u)
        (UserRow.balance_wl u) (UserRow.balance_dl u + delta)
        (UserRow.balance_bgl u) (UserRow.balance_idr u) at_ by_
  | BGL =>
      UserRow.mk (UserRow.id u) (UserRow.user_type u) (UserRow.growid u)
        (UserRow.balance_wl u) (UserRow.balance_dl u)
        (UserRow.balance_bgl u + delta) (UserRow.balance_idr u) at_ by_
  | RUPIAH =>
      UserRow.mk (UserRow.id u) (UserRow.user_type u) (UserRow.growid u)
        (UserRow.balance_wl u) (UserRow.balance_dl u)
        (UserRow.balance_bgl u) (UserRow.balance_idr u + delta) at_ by_
  end.

Definition set_status (s : TransactionStatus) (t : TxnRow.t) : TxnRow.t :=
  TxnRow.mk (TxnRow.id t) (TxnRow.user_id t) (TxnRow.user_type t)
    (TxnRow.currency_type t) (TxnRow.transaction_type t) (TxnRow.amount t)
    (TxnRow.created_by t) (TxnRow.description t) s (TxnRow.timestamp t).

Definition rate_matches (c : CurrencyType) (r : RateRow.t) : bool :=
  CurrencyType_eqb (RateRow.currency r) c && RateRow.is_active r.

(** [ORDER BY updated_at DESC LIMIT 1]: the row with the greatest
    [updated_at]; among equal ones the first in table order. *)
Fixpoint latest (rows : list RateRow.t) : option RateRow.t :=
  match rows with
  | [] => None
  | r :: rest =>
      match latest rest with
      | None => Some r
      | Some r' =>
          if RateRow.updated_at r <? RateRow.updated_at r'
          then Some r' else Some r
      end
  end.

Definition option_to_list {A} (o : option A) : list A :=
  match o with
  | Some a => [a]
  | None => []
  end.

(** [cursor.execute(query, params)]: the rows a following [fetchall]
    gives, and the tables after the statement. *)
Definition cursor_execute (query : Statement) (w : World)
  : ResultSet * World :=
  match query with
  | SelectUser user_id user_type =>
      (UserRows (filter (user_matches user_id user_type) (users w)), w)
  | InsertBalanceTransaction row =>
      (NoRows, set_balance_transactions w (balance_transactions w ++ [row]))
  | UpdateUserBalance c delta at_ by_ user_id user_type =>
      (NoRows,
       set_users w
         (map (fun u => if user_matches user_id user_type u
                        then add_to_balance c delta at_ by_ u else u)
              (users w)))
  | UpdateTransactionStatus s id =>
      (NoRows,
       set_balance_transactions w
         (map (fun t => if N.eqb (TxnRow.id t) id then set_status s t else t)
              (balance_transactions w)))
  | SelectActiveRate c =>
      (RateRows
         (option_to_list (latest (filter (rate_matches c)
                                         (conversion_rates w)))), w)
  | InsertConversionRate row =>
      (NoRows, set_conversion_rates w (conversion_rates w ++ [row]))
  | InsertConversion row =>
      (NoRows, set_conversions w (conversions w ++ [row]))
  end.

(** An [int] sqlite3 can bind: a signed 64-bit integer. *)
Definition sqlite_int (z : Z) : bool := (- 2 ^ 63 <=? z) && (z <? 2 ^ 63).

(** The [int] parameters of a statement, in the order they are bound.  (The
    other parameters are strings, [True], [None] and datetimes.) *)
Definition bound_integers (query : Statement) : list Z :=
  match query with
  | SelectUser _ _ => []
  | InsertBalanceTransaction row => [TxnRow.amount row]
  | UpdateUserBalance _ delta _ _ _ _ => [delta]
  | UpdateTransactionStatus _ _ => []
  | SelectActiveRate _ => []
  | InsertConversionRate row =>
      [RateRow.rate_rupiah row; RateRow.min_amount row;
       RateRow.max_amount row]
  | InsertConversion row =>
      [ConversionRow.amount row; ConversionRow.converted_amount row;
       ConversionRow.rate_used row]
  end.

(** Binding the parameters: [cursor.execute] raises [OverflowError] on an
    [int] outside 64 bits, before the statement runs.  [OverflowError] is no
    [sqlite3.Error], so [execute_query] passes it on as it is. *)
Definition bind_parameters (params : list Z) : exn + unit :=
  if forallb sqlite_int params then inr tt
  else inl (OverflowError
              "Python int too large to convert to SQLite INTEGER").

(** [execute_query(query, params, fetch)]: with [fetch] the rows are
    returned and nothing is committed; without it the statement is
    committed at once and [None] is returned. *)
Definition execute_query (query : Statement) (fetch : bool)
  : M (option ResultSet) :=
  fun w =>
    match bind_parameters (bound_integers query) with
    | inl e => (Raise e, w)
    | inr _ =>
        let (rows, w1) := cursor_execute query w in
        let w2 := emit (EvExecute query) w1 in
        if fetch then (Ok (Some rows), w2)
        else (Ok None, emit EvCommit w2)
    end.

(** The attributes of a [DatabaseService] object: the three class
    attributes, [startup_time] set by [__init__], and the methods of the
    class.  The class defines no [__getattr__] and has no base class but
    [object], whose own attributes (all of the form [__name__]) are left
    out. *)
Definition attributes : list string :=
  ["_instance"; "_conn"; "_redis"; "startup_time";
   "__new__"; "__init__"; "_init_sqlite"; "_init_redis";
   "get_connection"; "get_redis"; "execute_query";
   "cache_get"; "cache_set"; "cache_delete"; "cache_clear"; "acquire_lock"].

(** [self.db.<name>]: the lookup of an attribute on the object. *)
Definition getattr (name : string) : exn + unit :=
  if existsb (String.eqb name) attributes then inr tt
  else inl (AttributeError
              ("'DatabaseService' object has no attribute '" ++ name ++ "'")).

(** [async with self.db.transaction(): body].  The context expression is
    evaluated first; [transaction] is not an attribute of the object, so the
    lookup raises and the body is not entered. *)
Definition transaction {A} (body : M A) : M A :=
  lift (getattr "transaction") ;;; body.


End DatabaseService.

(** ** api/models/balance.py: models *)

Module Balance.
Record t := mk {
  wl_balance : Z;
  dl_balance : Z;
  bgl_balance : Z;
  rupiah_balance : Z
}.

(** [Field(0, ge=0)] and [validate_non_negative] on each field *)
Definition check (name : string) (v : Z) : list string :=
  if v <? 0 then [name] else [].

Definition new (wl dl bgl rupiah : Z) : exn + t :=
  match (check "wl_balance" wl ++ check "dl_balance" dl
         ++ check "bgl_balance" bgl ++ check "rupiah_balance" rupiah)%list
  with
  | [] => inr (mk wl dl bgl rupiah)
  | errors => inl (ValidationError errors)
  end.
End Balance.

(** Python truth value of an [Optional[str]] *)
Definition truthy (v : option string) : bool :=
  match v with
  | None => false
  | Some s => negb (String.eqb s "")
  end.

Module BalanceResponse.
Record t := mk {
  user_id : string;
  user_type : string;
  growid : option string;
  balance : Balance.t;
  last_updated : timestamp;
  updated_by : string
}.

(** [validate_growid]: [true] when the validator accepts.  The validator
    is applied to the value that is passed, [None] included. *)
Definition validate_growid (user_type : string) (v : option string) : bool :=
  if String.eqb user_type "discord" && negb (truthy v) then false
  else if String.eqb user_type "web" && truthy v then false
  else true.

Definition new (user_id user_type : string) (growid : option string)
    (balance : Balance.t) (last_updated : timestamp) (updated_by : string)
  : exn + t :=
  if validate_growid user_type growid
  then inr (mk user_id user_type growid balance last_updated updated_by)
  else inl (ValidationError ["growid"]).
End BalanceResponse.

Module BalanceUpdateRequest.
Record t := mk {
  currency_type : CurrencyType;
  amount : Z;
  transaction_type : TransactionType;
  reason : option string
}.

Definition check_amount (v : Z) : list string :=
  if v <=? 0 then ["amount"] else [].

(** [Field(None, min_length=3, max_length=200)] *)
Definition check_reason (v : option string) : list string :=
  match v with
  | None => []
  | Some s =>
      if (String.length s <? 3)%nat || (200 <? String.length s)%nat
      then ["reason"] else []
  end.

Definition new (currency_type : CurrencyType) (amount : Z)
    (transaction_type : TransactionType) (reason : option string)
  : exn + t :=
  match (check_amount amount ++ check_reason reason)%list with
  | [] => inr (mk currency_type amount transaction_type reason)
  | errors => inl (ValidationError errors)
  end.
End BalanceUpdateRequest.

(** ** api/service/balance_service.py *)

Module BalanceService.

Definition user_rows (result : option ResultSet) : list UserRow.t :=
  match result with
  | Some (UserRows rows) => rows
  | _ => []
  end.

(** [get_balance(user_id, user_type)] *)
Definition get_balance (user_id user_type : string)
  : M (option BalanceResponse.t) :=
  result <- DatabaseService.execute_query (SelectUser user_id user_type) true ;;
  match user_rows result with
  | [] => ret None
  | user :: _ =>
      balance <- lift (Balance.new (UserRow.balance_wl user)
                                   (UserRow.balance_dl user)
                                   (UserRow.balance_bgl user)
                                   (UserRow.balance_idr user)) ;;
      response <- lift (BalanceResponse.new (UserRow.id user)
                                            (UserRow.user_type user)
                                            (UserRow.growid user)
                                            balance
                                            (UserRow.updated_at user)
                                            (UserRow.updated_by user)) ;;
      ret (Some response)
  end.

(** [1 if transaction_type in [ADD, DONATION] else -1] *)
Definition multiplier (transaction_type : TransactionType) : Z :=
  if existsb (TransactionType_eqb transaction_type) [ADD; DONATION]
  then 1 else -1.

(** [update_balance(user_id, user_type, update_request)] *)
Definition update_balance (user_id user_type : string)
    (update_request : BalanceUpdateRequest.t)
  : M (option BalanceResponse.t) :=
  DatabaseService.transaction (
    transaction_id <- uuid4_hex8 ;;
    let multiplier :=
      multiplier (BalanceUpdateRequest.transaction_type update_request) in
    try_except (
      (* Create transaction record *)
      now <- datetime_now ;;
      DatabaseService.execute_query
        (InsertBalanceTransaction
           (TxnRow.mk transaction_id user_id user_type
              (BalanceUpdateRequest.currency_type update_request)
              (BalanceUpdateRequest.transaction_type update_request)
              (BalanceUpdateRequest.amount update_request)
              "fdygg"
              (BalanceUpdateRequest.reason update_request)
              PENDING now))
        false ;;;
      (* Update balance *)
      now <- datetime_now ;;
      DatabaseService.execute_query
        (UpdateUserBalance
           (BalanceUpdateRequest.currency_type update_request)
           (multiplier * BalanceUpdateRequest.amount update_request)
           now "fdygg" user_id user_type)
        false ;;;
      (* Update transaction status *)
      DatabaseService.execute_query
        (UpdateTransactionStatus SUCCESS transaction_id) false ;;;
      (* Return updated balance *)
      get_balance user_id user_type
    ) (fun e =>
      (* Update transaction status to failed *)
      DatabaseService.execute_query
        (UpdateTransactionStatus FAILED transaction_id) false ;;;
      ret None)
  ).

End BalanceService.

(** ** api/models/conversion.py *)

Module ConversionRate.
Record t := mk {
  currency : CurrencyType;
  rate_rupiah : Z;
  min_amount : Z;
  max_amount : Z;
  is_active : bool;
  updated_at : timestamp;
  updated_by : string
}.

(** [validate_currency], [gt=0], [ge=1], [gt=0] *)
Definition new (currency : CurrencyType) (rate_rupiah min_amount max_amount : Z)
    (is_active : bool) (updated_at : timestamp) (updated_by : string)
  : exn + t :=
  match ((if CurrencyType_eqb currency RUPIAH then ["currency"] else [])
         ++ (if rate_rupiah <=? 0 then ["rate_rupiah"] else [])
         ++ (if min_amount <? 1 then ["min_amount"] else [])
         ++ (if max_amount <=? 0 then ["max_amount"] else []))%list
  with
  | [] => inr (mk currency rate_rupiah min_amount max_amount is_active
                  updated_at updated_by)
  | errors => inl (ValidationError errors)
  end.
End ConversionRate.

Module ConversionRequest.
Record t := mk {
  user_id : string;
  user_type : string;
  from_currency : CurrencyType;
  to_currency : CurrencyType;
  amount : Z
}.

(** [validate_user_type] *)
Definition check_user_type (v : string) : list string :=
  if negb (String.eqb v "discord") then ["user_type"] else [].

(** [validate_to_currency] *)
Definition check_to_currency (from_curr v : CurrencyType) : list string :=
  if CurrencyType_eqb from_curr v then ["to_currency"]
  else if CurrencyType_eqb from_curr RUPIAH then ["to_currency"]
  else if negb (CurrencyType_eqb v RUPIAH) then ["to_currency"]
  else [].

(** [Field(..., gt=0)] *)
Definition check_amount (v : Z) : list string :=
  if v <=? 0 then ["amount"] else [].

Definition new (user_id user_type : string)
    (from_currency to_currency : CurrencyType) (amount : Z) : exn + t :=
  match (check_user_type user_type
         ++ check_to_currency from_currency to_currency
         ++ check_amount amount)%list
  with
  | [] => inr (mk user_id user_type from_currency to_currency amount)
  | errors => inl (ValidationError errors)
  end.
End ConversionRequest.

Module ConversionResponse.
Record t := mk {
  conversion_id : N;
  user_id : string;
  from_currency : CurrencyType;
  to_currency : CurrencyType;
  amount : Z;
  converted_amount : Z;
  rate_used : Z;
  timestamp : timestamp;
  status : string
}.
End ConversionResponse.

(** ** Python values, attribute lookup and keyword calls *)

Inductive PyVal :=
| VNone
| VStr (s : string)
| VInt (z : Z)
| VTime (t : timestamp)
| VBalance (b : Balance.t)
| VDeltas (d : list (CurrencyType * Z))
| VUpdateRequest (r : BalanceUpdateRequest.t).

Definition VOptStr (o : option string) : PyVal :=
  match o with
  | Some s => VStr s
  | None => VNone
  end.

(** [str(n)] for an [int] *)
Definition str_int (n : Z) : string := NilZero.string_of_int (Z.to_int n).

(** [getattr(response, name)] on a [BalanceResponse]: its attributes are its
    six fields (the balances of the four currencies are fields of the
    [Balance] held in the field [balance], not of the response). *)
Definition BalanceResponse_getattr (r : BalanceResponse.t) (name : string)
  : exn + PyVal :=
  if String.eqb name "user_id" then inr (VStr (BalanceResponse.user_id r))
  else if String.eqb name "user_type"
       then inr (VStr (BalanceResponse.user_type r))
  else if String.eqb name "growid"
       then inr (VOptStr (BalanceResponse.growid r))
  else if String.eqb name "balance"
       then inr (VBalance (BalanceResponse.balance r))
  else if String.eqb name "last_updated"
       then inr (VTime (BalanceResponse.last_updated r))
  else if String.eqb name "updated_by"
       then inr (VStr (BalanceResponse.updated_by r))
  else inl (AttributeError
              ("'BalanceResponse' object has no attribute '" ++ name ++ "'")).

(** [v < n] for an [int] n *)
Definition py_lt_int (v : PyVal) (n : Z) : exn + bool :=
  match v with
  | VInt z => inr (z <? n)
  | _ => inl (TypeError "'<' not supported between these instances")
  end.

Definition lookup_kw (k : string) (kwargs : list (string * PyVal))
  : option PyVal :=
  match find (fun kv => String.eqb (fst kv) k) kwargs with
  | Some kv => Some (snd kv)
  | None => None
  end.

(** Binding a call made with keyword arguments only to the parameters of a
    function without default values. *)
Definition bind_keywords (fname : string) (parameters : list string)
    (kwargs : list (string * PyVal)) : exn + unit :=
  match filter (fun kv => negb (existsb (String.eqb (fst kv)) parameters))
               kwargs with
  | kv :: _ =>
      inl (TypeError (fname ++ "() got an unexpected keyword argument '"
                      ++ fst kv ++ "'"))
  | [] =>
      match filter (fun p => negb (existsb (String.eqb p) (map fst kwargs)))
                   parameters with
      | p :: _ =>
          inl (TypeError (fname ++ "() missing 1 required positional argument: '"
                          ++ p ++ "'"))
      | [] => inr tt
      end
  end.

(** The parameters of [BalanceService.update_balance] after [self]. *)
Definition update_balance_parameters : list string :=
  ["user_id"; "user_type"; "update_request"].

(** A call of [self.balance_service.update_balance] with keyword arguments *)
Definition call_update_balance (kwargs : list (string * PyVal))
  : M (option BalanceResponse.t) :=
  lift (bind_keywords "update_balance" update_balance_parameters kwargs) ;;;
  match lookup_kw "user_id" kwargs, lookup_kw "user_type" kwargs,
        lookup_kw "update_request" kwargs with
  | Some (VStr user_id), Some (VStr user_type), Some (VUpdateRequest r) =>
      BalanceService.update_balance user_id user_type r
  | _, _, _ => raise (TypeError "update_balance(): argument of another type")
  end.

(** ** api/service/conversion_service.py *)

Module ConversionService.

Definition rate_rows (result : option ResultSet) : list RateRow.t :=
  match result with
  | Some (RateRows rows) => rows
  | _ => []
  end.

(** [get_conversion_rate(currency)] *)
Definition get_conversion_rate (currency : CurrencyType)
  : M (option ConversionRate.t) :=
  if CurrencyType_eqb currency RUPIAH
  then raise (ValueError "Cannot get conversion rate for Rupiah")
  else
    result <- DatabaseService.execute_query (SelectActiveRate currency) true ;;
    match rate_rows result with
    | [] => ret None
    | rate :: _ =>
        r <- lift (ConversionRate.new (RateRow.currency rate)
                     (RateRow.rate_rupiah rate) (RateRow.min_amount rate)
                     (RateRow.max_amount rate) (RateRow.is_active rate)
                     (RateRow.updated_at rate) (RateRow.updated_by rate)) ;;
        ret (Some r)
    end.

(** [update_conversion_rate(currency, rate_rupiah, min_amount, max_amount,
    updated_by)] *)
Definition update_conversion_rate (currency : CurrencyType)
    (rate_rupiah min_amount max_amount : Z) (updated_by : string)
  : M (option ConversionRate.t) :=
  try_except (
    if CurrencyType_eqb currency RUPIAH
    then raise (ValueError "Cannot set conversion rate for Rupiah")
    else if rate_rupiah <=? 0
    then raise (ValueError "Rate must be greater than 0")
    else if min_amount <? 1
    then raise (ValueError "Minimum amount must be at least 1")
    else if max_amount <=? min_amount
    then raise (ValueError
                  "Maximum amount must be greater than minimum amount")
    else
      (* Insert new rate *)
      now <- datetime_now ;;
      DatabaseService.execute_query
        (InsertConversionRate
           (RateRow.mk currency rate_rupiah min_amount max_amount true
                       now updated_by))
        false ;;;
      get_conversion_rate currency
  ) (fun e => ret None).

(** [convert_currency(request)] *)
Definition convert_currency (request : ConversionRequest.t)
  : M (bool * string * option ConversionResponse.t) :=
  let from_currency := ConversionRequest.from_currency request in
  let to_currency := ConversionRequest.to_currency request in
  let amount := ConversionRequest.amount request in
  try_except (
    (* Validate conversion direction *)
    if CurrencyType_eqb from_currency RUPIAH
    then ret (false, "Cannot convert from Rupiah", None)
    else if negb (CurrencyType_eqb to_currency RUPIAH)
    then ret (false, "Can only convert to Rupiah", None)
    else
      (* Get current rate *)
      rate <- get_conversion_rate from_currency ;;
      match rate with
      | None =>
          ret (false,
               "No conversion rate found for "
               ++ CurrencyType_value from_currency, None)
      | Some rate =>
          if negb (ConversionRate.is_active rate)
          then ret (false,
                    "Conversion for " ++ CurrencyType_value from_currency
                    ++ " is currently inactive", None)
          (* Validate amount *)
          else if amount <? ConversionRate.min_amount rate
          then ret (false,
                    "Amount below minimum ("
                    ++ str_int (ConversionRate.min_amount rate) ++ ")", None)
          else if ConversionRate.max_amount rate <? amount
          then ret (false,
                    "Amount above maximum ("
                    ++ str_int (ConversionRate.max_amount rate) ++ ")", None)
          else
            (* Check user balance *)
            balance <- BalanceService.get_balance
                         (ConversionRequest.user_id request)
                         (ConversionRequest.user_type request) ;;
            match balance with
            | None => ret (false, "User balance not found", None)
            | Some balance =>
                currency_balance <-
                  lift (BalanceResponse_getattr balance
                          (CurrencyType_value from_currency ++ "_balance")) ;;
                insufficient <- lift (py_lt_int currency_balance amount) ;;
                if (insufficient : bool)
                then ret (false,
                          "Insufficient " ++ CurrencyType_value from_currency
                          ++ " balance", None)
                else
                  (* Calculate conversion *)
                  let converted_amount :=
                    amount * ConversionRate.rate_rupiah rate in
                  (* Generate conversion ID *)
                  conversion_id <- uuid4_hex8 ;;
                  (* Create conversion record *)
                  now <- datetime_now ;;
                  DatabaseService.execute_query
                    (InsertConversion
                       (ConversionRow.mk conversion_id
                          (ConversionRequest.user_id request)
                          from_currency to_currency amount converted_amount
                          (ConversionRate.rate_rupiah rate) now
                          "success" "{}"))
                    false ;;;
                  (* Update balances *)
                  success <- call_update_balance
                    [("user_id", VStr (ConversionRequest.user_id request));
                     ("user_type", VStr (ConversionRequest.user_type request));
                     ("updates", VDeltas [(from_currency, - amount);
                                          (to_currency, converted_amount)])] ;;
                  match success with
                  | None => ret (false, "Failed to update balances", None)
                  | Some _ =>
                      now <- datetime_now ;;
                      ret (true, "Conversion successful",
                           Some (ConversionResponse.mk conversion_id
                                   (ConversionRequest.user_id request)
                                   from_currency to_currency amount
                                   converted_amount
                                   (ConversionRate.rate_rupiah rate)
                                   now "success"))
                  end
            end
      end
  ) (fun e => ret (false, "Conversion failed", None)).

(** The conversion call as a caller makes it: the [ConversionRequest] is
    built from the arguments, then handed to [convert_currency]. *)
Definition convert (user_id user_type : string)
    (from_currency to_currency : CurrencyType) (amount : Z)
  : M (bool * string * option ConversionResponse.t) :=
  request <- lift (ConversionRequest.new user_id user_type
                     from_currency to_currency amount) ;;
  convert_currency request.

End ConversionService.

(** * Observations on worlds and traces *)

(** The balance column of a currency, [balance_<value>]. *)
Definition column (c : CurrencyType) (u : UserRow.t) : Z :=
  match c with
  | WL => UserRow.balance_wl u
  | DL => UserRow.balance_dl u
  | BGL => UserRow.balance_bgl u
  | RUPIAH => UserRow.balance_idr u
  end.

(** The stored balance of an account in a currency, if the account exists. *)
Definition balance_of (c : CurrencyType) (user_id user_type : string)
    (w : World) : option Z :=
  option_map (column c)
    (find (DatabaseService.user_matches user_id user_type) (users w)).

Definition is_write_statement (q : Statement) : bool :=
  match q with
  | SelectUser _ _ | SelectActiveRate _ => false
  | _ => true
  end.



(** A SELECT: nothing is written to the store and no lock is taken. *)
Definition is_read (e : Event) : bool :=
  match e with
  | EvExecute q => negb (is_write_statement q)
  | _ => false
  end.

(** The active rows of a currency in conversion_rates. *)
Definition active_rows (c : CurrencyType) (w : World) : list RateRow.t :=
  filter (DatabaseService.rate_matches c) (conversion_rates w).

(** The checks [update_conversion_rate] makes before its INSERT. *)
Definition rate_accepted (currency : CurrencyType)
    (rate_rupiah min_amount max_amount : Z) : bool :=
  negb (CurrencyType_eqb currency RUPIAH)
  && negb (rate_rupiah <=? 0)
  && negb (min_amount <? 1)
  && negb (max_amount <=? min_amount).

(** [w'] differs from [w] by reads only: same tables, clock, identifiers and
    locks, and a trace extended by SELECT statements. *)
Definition reads_only (w w' : World) : Prop :=
  users w' = users w
  /\ balance_transactions w' = balance_transactions w
  /\ conversion_rates w' = conversion_rates w
  /\ conversions w' = conversions w
  /\ clock w' = clock w
  /\ uuid_drawn w' = uuid_drawn w
  /\ redis_locks w' = redis_locks w
  /\ exists evs, log w' = (log w ++ evs)%list /\ forallb is_read evs = true.

(** ** The statements of the specification the code is compared with *)



(** ** Sample worlds *)

Definition sample_uuids (n : nat) : N := N.of_nat n.

Definition alice (wl idr : Z) : UserRow.t :=
  UserRow.mk "alice" "discord" (Some "PLAYER123") wl 0 0 idr 0 "fdygg".

(** One discord account holding [wl] World Locks, empty ledger, no rate. *)
Definition world_of (wl : Z) : World :=
  mkWorld [alice wl 0] [] [] [] 10 sample_uuids 0 [] [].

(** The conversion scenario: [wl_balance = 1000] and an active rate
    [ConversionRate(WL, rate=5000, min=1, max=10000)]. *)
Definition conversion_world : World :=
  mkWorld [alice 1000 0] [] [RateRow.mk WL 5000 1 10000 true 0 "fdygg"] []
          10 sample_uuids 0 [] [].

Definition subtract_150 : BalanceUpdateRequest.t :=
  BalanceUpdateRequest.mk WL 150 SUBTRACT None.


Definition add_50 : BalanceUpdateRequest.t :=
  BalanceUpdateRequest.mk WL 50 ADD None.

Definition wl_request (amount : Z) : ConversionRequest.t :=
  ConversionRequest.mk "alice" "discord" WL RUPIAH amount.



(** A ledger entry of alice's account with a given id, status and time. *)
Definition entry (id : N) (status : TransactionStatus) (at_ : timestamp)
  : TxnRow.t :=
  TxnRow.mk id "alice" "discord" WL ADD 50 "fdygg" None status at_.


(** * Further operations of the same files *)

(** A SELECT of the operations below, with the [int] parameters it binds:
    the rows are returned, nothing is committed and the world stays as it
    is.  (The trace [log] follows the statements of the balance and
    conversion operations above only.) *)
Definition fetch_rows {A} (params : list Z) (rows : World -> A) : M A :=
  fun w =>
    match DatabaseService.bind_parameters params with
    | inl e => (Raise e, w)
    | inr _ => (Ok (rows w), w)
    end.

(** [LIMIT ? OFFSET ?] of SQLite: a negative limit is no limit, a negative
    offset is no offset. *)
Definition sql_limit_offset {A} (limit offset : Z) (rows : list A) : list A :=
  let skipped := skipn (Z.to_nat offset) rows in
  if limit <? 0 then skipped else firstn (Z.to_nat limit) skipped.

(** [[f(x) for x in xs]] where [f] may raise: the first exception wins. *)
Fixpoint comprehension {A B} (f : A -> exn + B) (xs : list A)
  : exn + list B :=
  match xs with
  | [] => inr []
  | x :: rest =>
      match f x with
      | inl e => inl e
      | inr y =>
          match comprehension f rest with
          | inl e => inl e
          | inr ys => inr (y :: ys)
          end
      end
  end.

(** ** api/models/balance.py: [Transaction], [BalanceHistoryResponse] *)

Module Transaction.
Record t := mk {
  id : N;
  user_id : string;
  user_type : string;
  currency_type : CurrencyType;
  transaction_type : TransactionType;
  amount : Z;
  timestamp : timestamp;
  created_by : string;
  description : option string;
  status : TransactionStatus
}.

(** [validate_currency_access] *)
Definition check_currency_type (user_type : string) (v : CurrencyType)
  : list string :=
  if String.eqb user_type "web" && negb (CurrencyType_eqb v RUPIAH)
  then ["currency_type"] else [].

(** [Field(..., gt=0)] *)
Definition check_amount (v : Z) : list string :=
  if v <=? 0 then ["amount"] else [].

Definition new (id : N) (user_id user_type : string)
    (currency_type : CurrencyType) (transaction_type : TransactionType)
    (amount : Z) (timestamp : Z) (created_by : string)
    (description : option string) (status : TransactionStatus) : exn + t :=
  match (check_currency_type user_type currency_type
         ++ check_amount amount)%list with
  | [] => inr (mk id user_id user_type currency_type transaction_type amount
                  timestamp created_by description status)
  | errors => inl (ValidationError errors)
  end.
End Transaction.

Module BalanceHistoryResponse.
Record t := mk {
  user_id : string;
  user_type : string;
  growid : option string;
  transactions : list Transaction.t;
  total_records : Z;
  page : Z;
  page_size : Z
}.

(** [total_records: ge=0], [page: ge=1], [page_size: ge=1, le=100] *)
Definition new (user_id user_type : string) (growid : option string)
    (transactions : list Transaction.t) (total_records page page_size : Z)
  : exn + t :=
  match ((if total_records <? 0 then ["total_records"] else [])
         ++ (if page <? 1 then ["page"] else [])
         ++ (if (page_size <? 1) || (100 <? page_size)
             then ["page_size"] else []))%list with
  | [] => inr (mk user_id user_type growid transactions total_records page
                  page_size)
  | errors => inl (ValidationError errors)
  end.
End BalanceHistoryResponse.

(** ** api/service/balance_service.py: [get_balance_history] *)

Module BalanceHistory.

(** [WHERE user_id = ? AND user_type = ?] on balance_transactions *)
Definition entry_matches (user_id user_type : string) (t : TxnRow.t) : bool :=
  String.eqb (TxnRow.user_id t) user_id
  && String.eqb (TxnRow.user_type t) user_type.

(** [ORDER BY timestamp DESC]; rows of equal timestamp keep table order. *)
Fixpoint insert_desc (t : TxnRow.t) (sorted : list TxnRow.t)
  : list TxnRow.t :=
  match sorted with
  | [] => [t]
  | x :: rest =>
      if TxnRow.timestamp x <=? TxnRow.timestamp t
      then t :: sorted
      else x :: insert_desc t rest
  end.

Definition order_by_timestamp_desc (rows : list TxnRow.t) : list TxnRow.t :=
  fold_right insert_desc [] rows.

(** [SELECT COUNT( * ) as total FROM balance_transactions WHERE ...]: one
    row *)
Definition count_query (user_id user_type : string) (w : World) : list Z :=
  [Z.of_nat (List.length (filter (entry_matches user_id user_type)
                                 (balance_transactions w)))].

(** [SELECT * FROM balance_transactions WHERE ... ORDER BY timestamp DESC
    LIMIT ? OFFSET ?] *)
Definition txn_query (user_id user_type : string) (limit offset : Z)
    (w : World) : list TxnRow.t :=
  sql_limit_offset limit offset
    (order_by_timestamp_desc
       (filter (entry_matches user_id user_type) (balance_transactions w))).

(** [SELECT growid FROM users WHERE id = ? AND user_type = ?] *)
Definition user_query (user_id user_type : string) (w : World)
  : list (option string) :=
  map UserRow.growid
    (filter (DatabaseService.user_matches user_id user_type) (users w)).

(** [Transaction(id=txn['id'], ...)]; the rows hold the ten columns the
    INSERT of [update_balance] names, so [txn.get('metadata')] is empty. *)
Definition transaction_of_row (txn : TxnRow.t) : exn + Transaction.t :=
  Transaction.new (TxnRow.id txn) (TxnRow.user_id txn) (TxnRow.user_type txn)
    (TxnRow.currency_type txn) (TxnRow.transaction_type txn)
    (TxnRow.amount txn) (TxnRow.timestamp txn) (TxnRow.created_by txn)
    (TxnRow.description txn) (TxnRow.status txn).

(** [get_balance_history(user_id, user_type, page, page_size)] *)
Definition get_balance_history (user_id user_type : string)
    (page page_size : Z) : M BalanceHistoryResponse.t :=
  let offset := (page - 1) * page_size in
  count_result <- fetch_rows [] (count_query user_id user_type) ;;
  let total_records :=
    match count_result with
    | total :: _ => total
    | [] => 0
    end in
  transactions_result <-
    fetch_rows [page_size; offset]
      (txn_query user_id user_type page_size offset) ;;
  (* Get user info for growid *)
  user_result <- fetch_rows [] (user_query user_id user_type) ;;
  let growid :=
    match user_result with
    | g :: _ => g
    | [] => None
    end in
  transactions <- lift (comprehension transaction_of_row transactions_result) ;;
  lift (BalanceHistoryResponse.new user_id user_type growid transactions
          total_records page page_size).

End BalanceHistory.

(** ** api/service/conversion_service.py: [get_all_rates] *)

Module ConversionRates.

Definition all_currencies : list CurrencyType := [WL; DL; BGL; RUPIAH].

(** [WHERE 1=1] and, unless [include_inactive], [AND is_active = 1] *)
Definition selected (include_inactive : bool) (r : RateRow.t) : bool :=
  include_inactive || RateRow.is_active r.

(** The rows of one [PARTITION BY currency]. *)
Definition partition (include_inactive : bool) (c : CurrencyType)
    (w : World) : list RateRow.t :=
  filter (fun r => CurrencyType_eqb (RateRow.currency r) c
                   && selected include_inactive r)
         (conversion_rates w).

(** [SELECT DISTINCT currency, FIRST_VALUE(...) OVER (PARTITION BY currency
    ORDER BY updated_at DESC) ...]: one row for each currency that has
    rows, holding the columns of the first row of its partition. *)
Definition all_rates_query (include_inactive : bool) (w : World)
  : list RateRow.t :=
  flat_map (fun c => DatabaseService.option_to_list
                       (DatabaseService.latest (partition include_inactive c w)))
           all_currencies.

(** [CurrencyType(rate["currency"]): ConversionRate(...)] *)
Definition rate_entry (rate : RateRow.t)
  : exn + (CurrencyType * ConversionRate.t) :=
  match ConversionRate.new (RateRow.currency rate) (RateRow.rate_rupiah rate)
          (RateRow.min_amount rate) (RateRow.max_amount rate)
          (RateRow.is_active rate) (RateRow.updated_at rate)
          (RateRow.updated_by rate) with
  | inl e => inl e
  | inr r => inr (RateRow.currency rate, r)
  end.

(** [get_all_rates(include_inactive)]; the dictionary is the list of its
    items. *)
Definition get_all_rates (include_inactive : bool)
  : M (list (CurrencyType * ConversionRate.t)) :=
  results <- fetch_rows [] (all_rates_query include_inactive) ;;
  lift (comprehension rate_entry results).

(** [rates.get(currency)] *)
Definition dict_get (c : CurrencyType)
    (d : list (CurrencyType * ConversionRate.t)) : option ConversionRate.t :=
  match find (fun kv => CurrencyType_eqb (fst kv) c) d with
  | Some kv => Some (snd kv)
  | None => None
  end.

End ConversionRates.

(** ** api/utils/currency_utils.py *)

Module CurrencyUtils.

(** [min_amounts.get(currency_type, 0)] *)
Definition min_amounts (c : CurrencyType) : Z :=
  match c with
  | WL => 1
  | DL => 1
  | BGL => 1
  | RUPIAH => 1000
  end.

(** [validate_currency_amount(amount, currency_type)] *)
Definition validate_currency_amount (amount : Z) (c : CurrencyType) : bool :=
  min_amounts c <=? amount.

(** [validate_conversion_rules(user_type, from_currency, to_currency)] *)
Definition validate_conversion_rules (user_type : string)
    (from_currency to_currency : CurrencyType) : bool :=
  if negb (String.eqb user_type "discord") then false
  else if CurrencyType_eqb from_currency RUPIAH then false
  else if negb (CurrencyType_eqb to_currency RUPIAH) then false
  else true.

End CurrencyUtils.

(** ** api/utils/platform_utils.py *)

Module PlatformUtils.

(** [platform_features.get(platform, [])] *)
Definition platform_features (platform : string) : list string :=
  if String.eqb platform "discord"
  then ["convert_currency"; "game_currency"; "rupiah"]
  else if String.eqb platform "web" then ["rupiah"]
  else [].

(** [validate_platform_access(platform, feature)] *)
Definition validate_platform_access (platform feature : string) : bool :=
  existsb (String.eqb feature) (platform_features platform).

End PlatformUtils.

(** ** Observations on accounts and rates *)

(** The users row an account lookup reads: the first that matches. *)
Definition account_row (user_id user_type : string) (w : World)
  : option UserRow.t :=
  find (DatabaseService.user_matches user_id user_type) (users w).

(** The balance a response shows for a currency. *)
Definition shown (c : CurrencyType) (r : BalanceResponse.t) : Z :=
  match c with
  | WL => Balance.wl_balance (BalanceResponse.balance r)
  | DL => Balance.dl_balance (BalanceResponse.balance r)
  | BGL => Balance.bgl_balance (BalanceResponse.balance r)
  | RUPIAH => Balance.rupiah_balance (BalanceResponse.balance r)
  end.

(** A conversion rate carries the columns of a row. *)
Definition rate_of_row (r : RateRow.t) : ConversionRate.t :=
  ConversionRate.mk (RateRow.currency r) (RateRow.rate_rupiah r)
    (RateRow.min_amount r) (RateRow.max_amount r) (RateRow.is_active r)
    (RateRow.updated_at r) (RateRow.updated_by r).

(** A transaction of the history carries the columns of a ledger entry. *)
Definition shows_entry (t : Transaction.t) (e : TxnRow.t) : Prop :=
  Transaction.id t = TxnRow.id e
  /\ Transaction.user_id t = TxnRow.user_id e
  /\ Transaction.user_type t = TxnRow.user_type e
  /\ Transaction.currency_type t = TxnRow.currency_type e
  /\ Transaction.transaction_type t = TxnRow.transaction_type e
  /\ Transaction.amount t = TxnRow.amount e
  /\ Transaction.timestamp t = TxnRow.timestamp e
  /\ Transaction.status t = TxnRow.status e.

(** Rows in the order of the history query: the newest first. *)
Definition newest_first (a b : TxnRow.t) : Prop :=
  TxnRow.timestamp b <= TxnRow.timestamp a.

(** The value [get_balance] returns for the row it read. *)
Definition read_row (u : UserRow.t) : result (option BalanceResponse.t) :=
  match Balance.new (UserRow.balance_wl u) (UserRow.balance_dl u)
          (UserRow.balance_bgl u) (UserRow.balance_idr u) with
  | inl e => Raise e
  | inr balance =>
      match BalanceResponse.new (UserRow.id u) (UserRow.user_type u)
              (UserRow.growid u) balance (UserRow.updated_at u)
              (UserRow.updated_by u) with
      | inl e => Raise e
      | inr response => Ok (Some response)
      end
  end.

(** ** More sample worlds *)

(** A web account holding rupiah only. *)
Definition wendy (idr : Z) : UserRow.t :=
  UserRow.mk "wendy" "web" None 0 0 0 idr 0 "fdygg".

(** Alice's account with two ledger entries, the earlier one stored
    first. *)
Definition two_entries_world : World :=
  mkWorld [alice 100 0] [entry 7 FAILED 3; entry 9 SUCCESS 8] [] []
          10 sample_uuids 0 [] [].

(** A web account with one stored ledger entry, in World Locks. *)
Definition web_entry : TxnRow.t :=
  TxnRow.mk 5 "wendy" "web" WL ADD 5 "fdygg" None SUCCESS 4.

Definition web_entry_world : World :=
  mkWorld [wendy 5000] [web_entry] [] [] 10 sample_uuids 0 [] [].

(** The conversion scenario with one more stored row, for the rupiah. *)
Definition rupiah_row : RateRow.t :=
  RateRow.mk RUPIAH 1 1 10 true 5 "fdygg".

Definition rupiah_row_world : World :=
  mkWorld [alice 1000 0]
          [] [RateRow.mk WL 5000 1 10000 true 0 "fdygg"; rupiah_row] []
          10 sample_uuids 0 [] [].

(** * Properties *)

(** ** Worlds and computations *)

Lemma bind_eq {A B} (m : M A) (k : A -> M B) (w : World) :
  bind m k w = match m w with
               | (Ok a, w') => k a w'
               | (Raise e, w') => (Raise e, w')
               | (Blocks, w') => (Blocks, w')
               end.
Proof. reflexivity. Qed.

Lemma try_except_eq {A} (body : M A) (handler : exn -> M A) (w : World) :
  try_except body handler w
  = match body w with
    | (Raise e, w') => handler e w'
    | r => r
    end.
Proof. reflexivity. Qed.

(** A write whose parameters can be bound is committed at once: the
    statement, then the commit. *)
Lemma execute_query_write (q : Statement) (w : World) :
  forallb DatabaseService.sqlite_int (DatabaseService.bound_integers q)
  = true ->
  DatabaseService.execute_query q false w
  = (Ok None,
     emit EvCommit
       (emit (EvExecute q) (snd (DatabaseService.cursor_execute q w)))).
Proof.
  intros H. unfold DatabaseService.execute_query,
    DatabaseService.bind_parameters. rewrite H.
  destruct (DatabaseService.cursor_execute q w); reflexivity.
Qed.

(** A statement with a parameter outside 64 bits is not executed. *)
Lemma execute_query_overflow (q : Statement) (fetch : bool) (w : World) :
  forallb DatabaseService.sqlite_int (DatabaseService.bound_integers q)
  = false ->
  DatabaseService.execute_query q fetch w
  = (Raise (OverflowError
              "Python int too large to convert to SQLite INTEGER"), w).
Proof.
  intros H. unfold DatabaseService.execute_query,
    DatabaseService.bind_parameters. now rewrite H.
Qed.

(** A read that binds no [int] returns the rows and commits nothing. *)
Lemma execute_query_fetch (q : Statement) (w : World) :
  DatabaseService.bound_integers q = [] ->
  DatabaseService.execute_query q true w
  = (Ok (Some (fst (DatabaseService.cursor_execute q w))),
     emit (EvExecute q) (snd (DatabaseService.cursor_execute q w))).
Proof.
  intros H. unfold DatabaseService.execute_query,
    DatabaseService.bind_parameters. rewrite H. cbn [forallb].
  destruct (DatabaseService.cursor_execute q w); reflexivity.
Qed.

(** ** Reads *)

Lemma reads_only_refl (w : World) : reads_only w w.
Proof.
  repeat split.
  exists []. now rewrite app_nil_r.
Qed.


Lemma reads_only_select (q : Statement) (w : World) :
  is_write_statement q = false ->
  reads_only w (emit (EvExecute q) w).
Proof.
  intros Hq. repeat split.
  exists [EvExecute q]. split; [reflexivity|].
  simpl. now rewrite Hq.
Qed.



(** ** [update_balance] *)

(** [transaction] is not an attribute of the store object. *)
Lemma getattr_transaction :
  DatabaseService.getattr "transaction"
  = inl (AttributeError
           "'DatabaseService' object has no attribute 'transaction'").
Proof. reflexivity. Qed.

(** Every call of [update_balance] stops at its first line: the lookup of
    [self.db.transaction] raises, outside the [try], before an identifier is
    drawn, the clock is read or a statement is sent. *)
Lemma update_balance_raises (user_id user_type : string)
    (req : BalanceUpdateRequest.t) (w : World) :
  BalanceService.update_balance user_id user_type req w
  = (Raise (AttributeError
              "'DatabaseService' object has no attribute 'transaction'"), w).
Proof.
  unfold BalanceService.update_balance, DatabaseService.transaction.
  rewrite bind_eq, getattr_transaction. reflexivity.
Qed.

(** ** Conversion: what [convert_currency] can reach *)

Lemma get_conversion_rate_reads (c : CurrencyType) (w : World) :
  reads_only w (snd (ConversionService.get_conversion_rate c w)).
Proof.
  unfold ConversionService.get_conversion_rate.
  destruct (CurrencyType_eqb c RUPIAH); [apply reads_only_refl|].
  unfold bind, DatabaseService.execute_query.
  cbn [DatabaseService.bound_integers DatabaseService.bind_parameters forallb
       DatabaseService.cursor_execute ConversionService.rate_rows].
  destruct (DatabaseService.option_to_list _) as [|rate rest];
    [now apply reads_only_select|].
  destruct (ConversionRate.new _ _ _ _ _ _ _) as [e|r];
    now apply reads_only_select.
Qed.




(** No [BalanceResponse] has an attribute [<currency>_balance]. *)
Lemma BalanceResponse_has_no_currency_balance (r : BalanceResponse.t)
    (c : CurrencyType) :
  exists msg,
    BalanceResponse_getattr r (CurrencyType_value c ++ "_balance")
    = inl (AttributeError msg).
Proof. destruct c; eexists; reflexivity. Qed.

(** [update_balance] has no parameter [updates]. *)
Lemma call_update_balance_updates_raises (user_id user_type : PyVal)
    (updates : PyVal) (w : World) :
  exists msg,
    call_update_balance
      [("user_id", user_id); ("user_type", user_type); ("updates", updates)] w
    = (Raise (TypeError msg), w).
Proof. eexists; reflexivity. Qed.




(** ** Balance history: the value it is built from *)

Lemma comprehension_inr {A B} (f : A -> exn + B) (xs : list A)
    (ys : list B) :
  comprehension f xs = inr ys -> Forall2 (fun x y => f x = inr y) xs ys.
Proof.
  revert ys. induction xs as [|x xs IH]; intros ys; cbn.
  - intros H. injection H as <-. constructor.
  - destruct (f x) as [e|y] eqn:Hx; [discriminate|].
    destruct (comprehension f xs) as [e|ys']; [discriminate|].
    intros H. injection H as <-. constructor; [exact Hx|now apply IH].
Qed.

Lemma comprehension_inl {A B} (f : A -> exn + B) (xs : list A) (e : exn) :
  comprehension f xs = inl e -> exists x, In x xs /\ f x = inl e.
Proof.
  induction xs as [|x xs IH]; cbn; [discriminate|].
  destruct (f x) as [e'|y] eqn:Hx.
  - intros H. injection H as <-. exists x. auto.
  - destruct (comprehension f xs) as [e'|ys]; [|discriminate].
    intros H. injection H as <-.
    destruct (IH eq_refl) as (x' & Hin & Hf). exists x'. auto.
Qed.

Lemma comprehension_raises {A B} (f : A -> exn + B) (xs : list A) (x : A)
    (e : exn) :
  In x xs -> f x = inl e -> exists e', comprehension f xs = inl e'.
Proof.
  induction xs as [|a xs IH]; cbn; [contradiction|].
  intros [->|Hin] Hf.
  - rewrite Hf. now eexists.
  - destruct (f a); [now eexists|].
    destruct (IH Hin Hf) as [e' ->]. now eexists.
Qed.

Lemma transaction_of_row_inl (txn : TxnRow.t) (e : exn) :
  BalanceHistory.transaction_of_row txn = inl e ->
  exists fields, e = ValidationError fields.
Proof.
  unfold BalanceHistory.transaction_of_row, Transaction.new.
  destruct (_ ++ _)%list; [discriminate|].
  intros H. injection H as <-. now eexists.
Qed.

Lemma transaction_of_row_inr (txn : TxnRow.t) (t : Transaction.t) :
  BalanceHistory.transaction_of_row txn = inr t ->
  shows_entry t txn
  /\ 0 < TxnRow.amount txn
  /\ (TxnRow.user_type txn = "web" -> TxnRow.currency_type txn = RUPIAH).
Proof.
  unfold BalanceHistory.transaction_of_row, Transaction.new,
    Transaction.check_currency_type, Transaction.check_amount.
  destruct (String.eqb (TxnRow.user_type txn) "web"
            && negb (CurrencyType_eqb (TxnRow.currency_type txn) RUPIAH))
    eqn:Hc; [discriminate|].
  destruct (TxnRow.amount txn <=? 0) eqn:Ha; [discriminate|].
  cbn. intros H. injection H as <-.
  split; [repeat split|]. split; [now apply Z.leb_gt|].
  intros Hweb. rewrite Hweb in Hc. cbn in Hc.
  destruct (TxnRow.currency_type txn); try discriminate. reflexivity.
Qed.

(** The queries leave the world as it is; the value is built from their
    rows, unless a paging parameter cannot be bound. *)
Lemma get_balance_history_eq (user_id user_type : string) (page page_size : Z)
    (w : World) :
  BalanceHistory.get_balance_history user_id user_type page page_size w
  = (match DatabaseService.bind_parameters
             [page_size; (page - 1) * page_size] with
     | inl e => Raise e
     | inr _ =>
         match comprehension BalanceHistory.transaction_of_row
                 (BalanceHistory.txn_query user_id user_type page_size
                    ((page - 1) * page_size) w) with
         | inl e => Raise e
         | inr transactions =>
             match BalanceHistoryResponse.new user_id user_type
                     (match BalanceHistory.user_query user_id user_type w with
                      | g :: _ => g
                      | [] => None
                      end)
                     transactions
                     (Z.of_nat
                        (List.length
                           (filter
                              (BalanceHistory.entry_matches user_id user_type)
                              (balance_transactions w))))
                     page page_size with
             | inl e => Raise e
             | inr r => Ok r
             end
         end
     end, w).
Proof.
  unfold BalanceHistory.get_balance_history, fetch_rows, bind.
  change (DatabaseService.bind_parameters []) with (@inr exn unit tt).
  cbv beta iota. cbn [BalanceHistory.count_query].
  destruct (DatabaseService.bind_parameters _) as [e|[]]; [reflexivity|].
  destruct (comprehension _ _) as [e|transactions]; [reflexivity|].
  cbn [lift ret].
  destruct (BalanceHistoryResponse.new _ _ _ _ _ _ _); reflexivity.
Qed.




(** * The claims *)

(** ** Balance updates *)

(** C1.  The overdraft scenario on the code: with [wl_balance = 100],
    [update_balance(currency=WL, amount=150, type=subtract)] raises
    [AttributeError] at [self.db.transaction()], its first line.  The
    balance stays 100, but no insufficient-funds error is returned and no
    ledger entry is recorded, failed or otherwise: the world is exactly as
    before the call. *)
Theorem update_balance_overdraft_raises :
  BalanceService.update_balance "alice" "discord" subtract_150 (world_of 100)
  = (Raise (AttributeError
              "'DatabaseService' object has no attribute 'transaction'"),
     world_of 100)
  /\ balance_of WL "alice" "discord" (world_of 100) = Some 100
  /\ balance_transactions (world_of 100) = []
  /\ log (world_of 100) = [].
Proof. repeat split. Qed.



(** C10.  An unknown account on the code: [update_balance] for "bob", who
    has no row in users, raises [AttributeError] at [self.db.transaction()];
    no row is inserted into balance_transactions, no status is written and
    [None] is not returned. *)
Theorem update_balance_unknown_account_raises :
  existsb (DatabaseService.user_matches "bob" "discord")
          (users (world_of 100)) = false
  /\ BalanceService.update_balance "bob" "discord" add_50 (world_of 100)
     = (Raise (AttributeError
                 "'DatabaseService' object has no attribute 'transaction'"),
        world_of 100)
  /\ balance_transactions
       (snd (BalanceService.update_balance "bob" "discord" add_50
               (world_of 100))) = []
  /\ log (snd (BalanceService.update_balance "bob" "discord" add_50
                 (world_of 100))) = [].
Proof. repeat split. Qed.

(** ** Ledger entry status *)



(** ** Conversions *)


(** C5.  The conversion scenario on the code: with the active rate
    [ConversionRate(WL, rate=5000, min=1, max=10000)] and
    [wl_balance = 1000], [convert(WL, amount=200)] returns the failure
    [(False, "Conversion failed", None)]; [wl_balance] stays 1000, the rupiah
    balance stays 0 and no conversion record is stored.  The call passes
    every check and then raises at [getattr(balance, "wl_balance")], an
    attribute the balance response does not have. *)
Theorem convert_scenario_fails :
  fst (ConversionService.convert "alice" "discord" WL RUPIAH 200
         conversion_world)
  = Ok (false, "Conversion failed", None)
  /\ balance_of WL "alice" "discord"
       (snd (ConversionService.convert "alice" "discord" WL RUPIAH 200
               conversion_world)) = Some 1000
  /\ balance_of RUPIAH "alice" "discord"
       (snd (ConversionService.convert "alice" "discord" WL RUPIAH 200
               conversion_world)) = Some 0
  /\ conversions
       (snd (ConversionService.convert "alice" "discord" WL RUPIAH 200
               conversion_world)) = [].
Proof. vm_compute. repeat split. Qed.

(** C9.  A conversion call whose platform is not discord, whose source is
    the real currency, or whose amount is not positive is rejected with the
    validation error when its request is built: [convert_currency] is not
    entered and the world is exactly as before (no lock, no statement, no
    entry, no record). *)
Theorem convert_rejects_before_any_effect (user_id user_type : string)
    (from_currency to_currency : CurrencyType) (amount : Z) (w : World) :
  user_type <> "discord" \/ from_currency = RUPIAH \/ amount <= 0 ->
  exists fields,
    fields <> []
    /\ ConversionService.convert user_id user_type from_currency to_currency
         amount w
       = (Raise (ValidationError fields), w).
Proof.
  intros H. unfold ConversionService.convert, bind, ConversionRequest.new.
  assert (Hne : (ConversionRequest.check_user_type user_type
                 ++ ConversionRequest.check_to_currency from_currency
                      to_currency
                 ++ ConversionRequest.check_amount amount)%list <> []).
  { intros Hnil. apply app_eq_nil in Hnil as [H1 H2].
    apply app_eq_nil in H2 as [H2 H3].
    destruct H as [H|[H|H]].
    - unfold ConversionRequest.check_user_type in H1.
      apply String.eqb_neq in H. rewrite H in H1. discriminate.
    - subst from_currency. destruct to_currency; discriminate.
    - unfold ConversionRequest.check_amount in H3.
      apply Z.leb_le in H. rewrite H in H3. discriminate. }
  destruct (_ ++ _)%list as [|f fs]; [contradiction|].
  exists (f :: fs). split; [discriminate|reflexivity].
Qed.

(** The scenario [convert(WL, amount=0)]. *)
Lemma convert_zero_amount_witness :
  0 <= 0
  /\ exists fields,
       fields <> []
       /\ ConversionService.convert "alice" "discord" WL RUPIAH 0
            conversion_world
          = (Raise (ValidationError fields), conversion_world).
Proof.
  split; [lia|].
  apply (convert_rejects_before_any_effect "alice" "discord" WL RUPIAH 0
           conversion_world).
  right. right. lia.
Defined.

(** ** Conversion rates *)

(** C6, as stated, fails: two rate updates for WL leave two active WL rows;
    the first one is not deactivated. *)
Lemma two_active_rates_after_update :
  List.length (active_rows WL
            (snd (ConversionService.update_conversion_rate WL 5000 1 10000
                    "fdygg" (world_of 100)))) = 1%nat
  /\ List.length (active_rows WL
               (snd (ConversionService.update_conversion_rate WL 6000 1 10000
                       "fdygg"
                       (snd (ConversionService.update_conversion_rate WL 5000
                               1 10000 "fdygg" (world_of 100)))))) = 2%nat
  /\ map RateRow.rate_rupiah
       (active_rows WL
          (snd (ConversionService.update_conversion_rate WL 6000 1 10000
                  "fdygg"
                  (snd (ConversionService.update_conversion_rate WL 5000
                          1 10000 "fdygg" (world_of 100))))))
     = [5000; 6000].
Proof. vm_compute. repeat split. Qed.

(** C6, amended.  [update_conversion_rate] only appends: when its checks
    accept the arguments and the three integers fit SQLite's 64-bit
    INTEGER ([-2^63 <= n < 2^63]) it adds one new active row at the end of
    conversion_rates, otherwise it adds nothing; in both cases every row
    that was there stays as it was (not updated in place, not deleted, not
    deactivated). *)
Theorem update_conversion_rate_appends (currency : CurrencyType)
    (rate_rupiah min_amount max_amount : Z) (updated_by : string)
    (w : World) :
  conversion_rates
    (snd (ConversionService.update_conversion_rate currency rate_rupiah
            min_amount max_amount updated_by w))
  = (conversion_rates w
     ++ (if rate_accepted currency rate_rupiah min_amount max_amount
            && forallb DatabaseService.sqlite_int
                 [rate_rupiah; min_amount; max_amount]
         then [RateRow.mk currency rate_rupiah min_amount max_amount true
                 (clock w) updated_by]
         else []))%list.
Proof.
  unfold ConversionService.update_conversion_rate, rate_accepted.
  rewrite try_except_eq.
  destruct (CurrencyType_eqb currency RUPIAH);
    [cbn [negb andb raise ret snd]; now rewrite app_nil_r|].
  destruct (rate_rupiah <=? 0);
    [cbn [negb andb raise ret snd]; now rewrite app_nil_r|].
  destruct (min_amount <? 1);
    [cbn [negb andb raise ret snd]; now rewrite app_nil_r|].
  destruct (max_amount <=? min_amount);
    [cbn [negb andb raise ret snd]; now rewrite app_nil_r|].
  cbn [negb andb].
  rewrite bind_eq. unfold datetime_now at 1. cbv beta iota. rewrite bind_eq.
  destruct (forallb DatabaseService.sqlite_int
              [rate_rupiah; min_amount; max_amount]) eqn:Hfit.
  - rewrite execute_query_write by exact Hfit. cbv beta iota.
    match goal with
    | |- context [ConversionService.get_conversion_rate currency ?w1] =>
        pose proof (get_conversion_rate_reads currency w1)
          as (_ & _ & Hr & _);
        destruct (ConversionService.get_conversion_rate currency w1)
          as [[o|e|] w2]
    end; cbn [snd ret] in *; rewrite Hr; reflexivity.
  - rewrite execute_query_overflow by exact Hfit.
    cbn [ret snd set_clock conversion_rates]. now rewrite app_nil_r.
Qed.

(** ** Locks *)



(** ** Outcomes *)



(** * Further properties *)

(** ** Account lookup *)

Lemma filter_head_find {A} (p : A -> bool) (l : list A) :
  find p l = hd_error (filter p l).
Proof.
  induction l as [|a l IH]; simpl; [reflexivity|].
  destruct (p a); [reflexivity|exact IH].
Qed.

Lemma Balance_new_inr (wl dl bgl idr : Z) (b : Balance.t) :
  Balance.new wl dl bgl idr = inr b ->
  b = Balance.mk wl dl bgl idr /\ 0 <= wl /\ 0 <= dl /\ 0 <= bgl /\ 0 <= idr.
Proof.
  unfold Balance.new, Balance.check.
  destruct (wl <? 0) eqn:H1; [discriminate|].
  destruct (dl <? 0) eqn:H2; [discriminate|].
  destruct (bgl <? 0) eqn:H3; [discriminate|].
  destruct (idr <? 0) eqn:H4; [discriminate|].
  cbn. intros H. injection H as <-.
  apply Z.ltb_ge in H1, H2, H3, H4. auto.
Qed.

Lemma get_balance_fst (user_id user_type : string) (w : World) :
  fst (BalanceService.get_balance user_id user_type w)
  = match account_row user_id user_type w with
    | None => Ok None
    | Some u => read_row u
    end.
Proof.
  unfold BalanceService.get_balance, account_row.
  rewrite bind_eq, execute_query_fetch by reflexivity.
  rewrite filter_head_find.
  cbn [DatabaseService.cursor_execute BalanceService.user_rows fst snd].
  destruct (filter _ (users w)) as [|u rest]; [reflexivity|].
  cbn [hd_error]. unfold read_row.
  rewrite bind_eq.
  destruct (Balance.new _ _ _ _) as [e|balance]; [reflexivity|].
  cbn [lift ret]. rewrite bind_eq.
  destruct (BalanceResponse.new _ _ _ _ _ _) as [e|response]; reflexivity.
Qed.

Lemma BalanceResponse_new_inr (user_id user_type : string)
    (growid : option string) (balance : Balance.t) (at_ : timestamp)
    (by_ : string) (r : BalanceResponse.t) :
  BalanceResponse.new user_id user_type growid balance at_ by_ = inr r ->
  r = BalanceResponse.mk user_id user_type growid balance at_ by_
  /\ (user_type = "discord" -> truthy growid = true)
  /\ (user_type = "web" -> truthy growid = false).
Proof.
  unfold BalanceResponse.new, BalanceResponse.validate_growid.
  destruct (String.eqb user_type "discord") eqn:Hd.
  - apply String.eqb_eq in Hd. subst user_type.
    destruct (truthy growid); cbn; [|discriminate].
    intros H. injection H as <-.
    repeat split; intros; auto; try discriminate.
  - apply String.eqb_neq in Hd. cbn [andb].
    destruct (String.eqb user_type "web") eqn:Hw.
    + destruct (truthy growid); cbn; [discriminate|].
      intros H. injection H as <-.
      repeat split; intros; auto; try contradiction.
    + apply String.eqb_neq in Hw. cbn.
      intros H. injection H as <-.
      repeat split; intros; auto; try contradiction.
Qed.

Lemma read_row_Some (u : UserRow.t) (r : BalanceResponse.t) :
  read_row u = Ok (Some r) ->
  r = BalanceResponse.mk (UserRow.id u) (UserRow.user_type u)
        (UserRow.growid u)
        (Balance.mk (UserRow.balance_wl u) (UserRow.balance_dl u)
           (UserRow.balance_bgl u) (UserRow.balance_idr u))
        (UserRow.updated_at u) (UserRow.updated_by u)
  /\ (0 <= UserRow.balance_wl u /\ 0 <= UserRow.balance_dl u
      /\ 0 <= UserRow.balance_bgl u /\ 0 <= UserRow.balance_idr u)
  /\ (UserRow.user_type u = "discord" -> truthy (UserRow.growid u) = true)
  /\ (UserRow.user_type u = "web" -> truthy (UserRow.growid u) = false).
Proof.
  unfold read_row.
  destruct (Balance.new _ _ _ _) as [e|balance] eqn:Hb; [discriminate|].
  apply Balance_new_inr in Hb as (-> & Hpos).
  destruct (BalanceResponse.new _ _ _ _ _ _) as [e|response] eqn:Hr;
    [discriminate|].
  apply BalanceResponse_new_inr in Hr as (-> & Hd & Hw).
  intros H. injection H as <-. auto.
Qed.

Lemma read_row_not_None (u : UserRow.t) : read_row u <> Ok None.
Proof.
  unfold read_row.
  destruct (Balance.new _ _ _ _); [discriminate|].
  destruct (BalanceResponse.new _ _ _ _ _ _); discriminate.
Qed.

Lemma find_user_matches (user_id user_type : string) (us : list UserRow.t)
    (u : UserRow.t) :
  find (DatabaseService.user_matches user_id user_type) us = Some u ->
  UserRow.id u = user_id /\ UserRow.user_type u = user_type /\ In u us.
Proof.
  intros H. apply find_some in H as [Hin Hm].
  unfold DatabaseService.user_matches in Hm.
  apply andb_true_iff in Hm as [H1 H2].
  apply String.eqb_eq in H1, H2. auto.
Qed.

Lemma account_row_ext (user_id user_type : string) (w1 w2 : World) :
  users w1 = users w2 ->
  account_row user_id user_type w1 = account_row user_id user_type w2.
Proof. unfold account_row. now intros ->. Qed.

(** X1.  Whatever [get_balance] returns as a response is the stored row of
    the account asked for: same id and platform, the four stored balances,
    all of them non-negative, a non-empty growid for a discord account and
    none for a web account. *)
Theorem get_balance_response_sound (user_id user_type : string) (w : World)
    (r : BalanceResponse.t) :
  fst (BalanceService.get_balance user_id user_type w) = Ok (Some r) ->
  BalanceResponse.user_id r = user_id
  /\ BalanceResponse.user_type r = user_type
  /\ (forall c, balance_of c user_id user_type w = Some (shown c r))
  /\ (forall c, 0 <= shown c r)
  /\ (user_type = "discord" -> truthy (BalanceResponse.growid r) = true)
  /\ (user_type = "web" -> truthy (BalanceResponse.growid r) = false).
Proof.
  rewrite get_balance_fst. unfold balance_of, account_row.
  destruct (find _ (users w)) as [u|] eqn:Hf; [|discriminate].
  intros H. apply read_row_Some in H as (-> & Hpos & Hd & Hw).
  apply find_user_matches in Hf as (Hid & Hty & _).
  cbn [BalanceResponse.user_id BalanceResponse.user_type
       BalanceResponse.growid].
  rewrite <- Hty.
  split; [exact Hid|]. split; [reflexivity|].
  split; [intros c; destruct c; reflexivity|].
  split; [intros c; destruct c; cbn; tauto|].
  split; assumption.
Qed.

Lemma get_balance_response_sound_witness :
  fst (BalanceService.get_balance "alice" "discord" (world_of 100))
  = Ok (Some (BalanceResponse.mk "alice" "discord" (Some "PLAYER123")
                (Balance.mk 100 0 0 0) 0 "fdygg"))
  /\ balance_of WL "alice" "discord" (world_of 100) = Some 100.
Proof.
  split; [reflexivity|].
  apply (get_balance_response_sound "alice" "discord" (world_of 100)
           (BalanceResponse.mk "alice" "discord" (Some "PLAYER123")
              (Balance.mk 100 0 0 0) 0 "fdygg") eq_refl).
Defined.

(** X2.  [get_balance] returns [None] exactly when no row of users matches
    the account; for an existing account it returns a response or raises. *)
Theorem get_balance_none_iff_unknown (user_id user_type : string)
    (w : World) :
  fst (BalanceService.get_balance user_id user_type w) = Ok None
  <-> account_row user_id user_type w = None.
Proof.
  rewrite get_balance_fst.
  destruct (account_row user_id user_type w) as [u|].
  - split; [|discriminate]. intros H. now apply read_row_not_None in H.
  - split; reflexivity.
Qed.

(** ** Balance updates, continued *)

(** X4.  [update_balance] changes nothing.  Every call, whatever the
    account and the request, raises the attribute error of
    [self.db.transaction()] and leaves the store as it was: the balances of
    every account in every currency, the ledger, the rates and the
    conversion records are unchanged, nothing is added to the trace, and
    [get_balance] returns afterwards what it returned before. *)
Theorem update_balance_frame (user_id user_type : string)
    (req : BalanceUpdateRequest.t) (w : World) :
  (exists msg,
     fst (BalanceService.update_balance user_id user_type req w)
     = Raise (AttributeError msg))
  /\ (forall c' user_id' user_type',
        balance_of c' user_id' user_type'
          (snd (BalanceService.update_balance user_id user_type req w))
        = balance_of c' user_id' user_type' w)
  /\ balance_transactions
       (snd (BalanceService.update_balance user_id user_type req w))
     = balance_transactions w
  /\ conversion_rates
       (snd (BalanceService.update_balance user_id user_type req w))
     = conversion_rates w
  /\ conversions (snd (BalanceService.update_balance user_id user_type req w))
     = conversions w
  /\ log (snd (BalanceService.update_balance user_id user_type req w))
     = log w
  /\ (forall user_id' user_type',
        fst (BalanceService.get_balance user_id' user_type'
               (snd (BalanceService.update_balance user_id user_type req w)))
        = fst (BalanceService.get_balance user_id' user_type' w)).
Proof.
  rewrite update_balance_raises. cbn [fst snd].
  split; [now eexists|]. repeat split.
Qed.

(** ** Balance history *)

Lemma length_insert_desc (t : TxnRow.t) (l : list TxnRow.t) :
  List.length (BalanceHistory.insert_desc t l) = S (List.length l).
Proof.
  induction l as [|x l IH]; cbn; [reflexivity|].
  destruct (_ <=? _); cbn; [reflexivity|now rewrite IH].
Qed.

Lemma length_order_by_timestamp_desc (l : list TxnRow.t) :
  List.length (BalanceHistory.order_by_timestamp_desc l) = List.length l.
Proof.
  unfold BalanceHistory.order_by_timestamp_desc.
  induction l as [|x l IH]; cbn [fold_right]; [reflexivity|].
  now rewrite length_insert_desc, IH.
Qed.

Lemma In_insert_desc (t x : TxnRow.t) (l : list TxnRow.t) :
  In x (BalanceHistory.insert_desc t l) <-> x = t \/ In x l.
Proof.
  induction l as [|a l IH]; cbn; [intuition congruence|].
  destruct (_ <=? _); cbn; [intuition congruence|].
  rewrite IH. intuition congruence.
Qed.

Lemma In_order_by_timestamp_desc (x : TxnRow.t) (l : list TxnRow.t) :
  In x (BalanceHistory.order_by_timestamp_desc l) <-> In x l.
Proof.
  unfold BalanceHistory.order_by_timestamp_desc.
  induction l as [|a l IH]; cbn [fold_right In]; [tauto|].
  rewrite In_insert_desc, IH. intuition congruence.
Qed.

Lemma In_sql_limit_offset {A} (limit offset : Z) (l : list A) (x : A) :
  In x (sql_limit_offset limit offset l) -> In x l.
Proof.
  assert (Hskip : forall n (l' : list A), In x (skipn n l') -> In x l').
  { intros n l' H. rewrite <- (firstn_skipn n l'). apply in_or_app. now right. }
  assert (Hfirst : forall n (l' : list A), In x (firstn n l') -> In x l').
  { intros n l' H. rewrite <- (firstn_skipn n l'). apply in_or_app. now left. }
  unfold sql_limit_offset. intros H.
  destruct (limit <? 0); [|apply Hfirst in H]; eapply Hskip; eauto.
Qed.

Lemma length_sql_limit_offset {A} (limit offset : Z) (l : list A) :
  0 <= limit -> 0 <= offset ->
  Z.of_nat (List.length (sql_limit_offset limit offset l))
  = Z.min limit (Z.max 0 (Z.of_nat (List.length l) - offset)).
Proof.
  intros Hl Ho. unfold sql_limit_offset.
  destruct (limit <? 0) eqn:H; [apply Z.ltb_lt in H; lia|].
  rewrite length_firstn, length_skipn. lia.
Qed.

Lemma BalanceHistoryResponse_new_inr (user_id user_type : string)
    (growid : option string) (transactions : list Transaction.t)
    (total page page_size : Z) (r : BalanceHistoryResponse.t) :
  BalanceHistoryResponse.new user_id user_type growid transactions total page
    page_size = inr r ->
  r = BalanceHistoryResponse.mk user_id user_type growid transactions total
        page page_size
  /\ 0 <= total /\ 1 <= page /\ 1 <= page_size <= 100.
Proof.
  unfold BalanceHistoryResponse.new.
  destruct (total <? 0) eqn:H1; [discriminate|].
  destruct (page <? 1) eqn:H2; [discriminate|].
  destruct (page_size <? 1) eqn:H3; [discriminate|].
  destruct (100 <? page_size) eqn:H4; [discriminate|].
  cbn. intros H. injection H as <-.
  apply Z.ltb_ge in H1, H2, H3, H4. repeat split; lia.
Qed.

Lemma Forall2_In_r {A B} (R : A -> B -> Prop) (xs : list A) (ys : list B)
    (y : B) :
  Forall2 R xs ys -> In y ys -> exists x, In x xs /\ R x y.
Proof.
  induction 1 as [|x y' xs ys Hxy _ IH]; cbn; [contradiction|].
  intros [->|Hin]; [exists x; auto|].
  destruct (IH Hin) as (x' & Hx' & HR). exists x'. auto.
Qed.

Lemma entry_matches_iff (user_id user_type : string) (e : TxnRow.t) :
  BalanceHistory.entry_matches user_id user_type e = true
  <-> TxnRow.user_id e = user_id /\ TxnRow.user_type e = user_type.
Proof.
  unfold BalanceHistory.entry_matches.
  rewrite andb_true_iff, !String.eqb_eq. tauto.
Qed.

(** X7.  A page of history.  When [get_balance_history] returns, the paging
    arguments were valid ([page >= 1], [1 <= page_size <= 100]),
    [total_records] is the number of ledger entries of the account, the
    page holds [min(page_size, max(0, total - (page-1)*page_size))]
    transactions, every one of them shows a stored entry of that account
    with a positive amount, and nothing was changed in the store. *)
Theorem get_balance_history_page (user_id user_type : string)
    (page page_size : Z) (w : World) (r : BalanceHistoryResponse.t) :
  fst (BalanceHistory.get_balance_history user_id user_type page page_size w)
  = Ok r ->
  1 <= page /\ 1 <= page_size <= 100
  /\ BalanceHistoryResponse.total_records r
     = Z.of_nat (List.length
                   (filter (BalanceHistory.entry_matches user_id user_type)
                           (balance_transactions w)))
  /\ Z.of_nat (List.length (BalanceHistoryResponse.transactions r))
     = Z.min page_size
         (Z.max 0 (BalanceHistoryResponse.total_records r
                   - (page - 1) * page_size))
  /\ (forall t, In t (BalanceHistoryResponse.transactions r) ->
        Transaction.user_id t = user_id
        /\ Transaction.user_type t = user_type
        /\ 0 < Transaction.amount t
        /\ exists e, In e (balance_transactions w) /\ shows_entry t e)
  /\ snd (BalanceHistory.get_balance_history user_id user_type page
            page_size w) = w.
Proof.
  rewrite get_balance_history_eq. cbn [fst snd].
  destruct (DatabaseService.bind_parameters _) as [e|[]]; [discriminate|].
  destruct (comprehension _ _) as [e|transactions] eqn:Hc; [discriminate|].
  destruct (BalanceHistoryResponse.new _ _ _ _ _ _ _) as [e|r'] eqn:Hn;
    [discriminate|].
  intros H. injection H as <-.
  apply BalanceHistoryResponse_new_inr in Hn as (-> & _ & Hp & Hs).
  cbn [BalanceHistoryResponse.total_records
       BalanceHistoryResponse.transactions].
  apply comprehension_inr in Hc.
  split; [exact Hp|]. split; [exact Hs|]. split; [reflexivity|].
  split; [|split; [|reflexivity]].
  - rewrite <- (Forall2_length Hc). unfold BalanceHistory.txn_query.
    rewrite length_sql_limit_offset by nia.
    now rewrite length_order_by_timestamp_desc.
  - intros t Ht.
    destruct (Forall2_In_r _ _ _ _ Hc Ht) as (row & Hin & Hrow).
    apply transaction_of_row_inr in Hrow as (Hshows & Hpos & _).
    unfold BalanceHistory.txn_query in Hin.
    apply In_sql_limit_offset in Hin.
    apply -> In_order_by_timestamp_desc in Hin.
    apply filter_In in Hin as [Hin Hm].
    apply entry_matches_iff in Hm as [Hu Ht'].
    destruct Hshows as (H1 & H2 & H3 & H4 & H5 & H6 & H7 & H8).
    split; [congruence|]. split; [congruence|]. split; [lia|].
    exists row. split; [exact Hin|]. repeat split; assumption.
Qed.

(** The first page of ten of an account with two stored entries. *)
Lemma get_balance_history_page_witness :
  exists r,
    fst (BalanceHistory.get_balance_history "alice" "discord" 1 10
           two_entries_world) = Ok r
    /\ BalanceHistoryResponse.total_records r = 2
    /\ Z.of_nat (List.length (BalanceHistoryResponse.transactions r)) = 2.
Proof.
  assert (H : exists r,
             fst (BalanceHistory.get_balance_history "alice" "discord" 1 10
                    two_entries_world) = Ok r)
    by (eexists; vm_compute; reflexivity).
  destruct H as [r H]. exists r. split; [exact H|].
  destruct (get_balance_history_page "alice" "discord" 1 10 _ r H)
    as (_ & _ & Ht & Hl & _).
  assert (H2 : BalanceHistoryResponse.total_records r = 2)
    by (rewrite Ht; vm_compute; reflexivity).
  split; [exact H2|]. rewrite Hl, H2. reflexivity.
Defined.

Lemma comprehension_total {A B} (f : A -> exn + B) (xs : list A) :
  (forall x, In x xs -> exists y, f x = inr y) ->
  exists ys, comprehension f xs = inr ys.
Proof.
  induction xs as [|x xs IH]; intros H; cbn [comprehension];
    [now eexists|].
  destruct (H x (or_introl eq_refl)) as [y ->].
  destruct IH as [ys ->]; [intros x' Hx'; apply H; now right|].
  now eexists.
Qed.

(** The paging arguments [BalanceHistoryResponse] refuses. *)
Lemma BalanceHistoryResponse_new_paging (user_id user_type : string)
    (growid : option string) (transactions : list Transaction.t)
    (total page page_size : Z) :
  0 <= total ->
  page < 1 \/ page_size < 1 \/ 100 < page_size ->
  BalanceHistoryResponse.new user_id user_type growid transactions total
    page page_size
  = inl (ValidationError
           ((if page <? 1 then ["page"] else [])
            ++ (if (page_size <? 1) || (100 <? page_size)
                then ["page_size"] else []))%list).
Proof.
  intros Ht H. unfold BalanceHistoryResponse.new.
  replace (total <? 0) with false by (symmetry; apply Z.ltb_ge; lia).
  cbn [app].
  destruct (page <? 1) eqn:H2; [reflexivity|].
  destruct (page_size <? 1) eqn:H3; [reflexivity|].
  destruct (100 <? page_size) eqn:H4; [reflexivity|].
  apply Z.ltb_ge in H2, H3, H4. lia.
Qed.

(** X8.  With [page < 1] or [page_size] outside 1..100,
    [get_balance_history] never returns a page, and the store is
    unchanged.  The arguments are not checked up front: when the two paging
    integers can be bound and every stored entry of the account passes the
    validation of [Transaction], the call raises the validation error of
    [BalanceHistoryResponse], which names exactly the offending arguments
    ([page], [page_size]). *)
Theorem get_balance_history_rejects_paging (user_id user_type : string)
    (page page_size : Z) (w : World) :
  page < 1 \/ page_size < 1 \/ 100 < page_size ->
  (forall r,
     fst (BalanceHistory.get_balance_history user_id user_type page
            page_size w) <> Ok r)
  /\ snd (BalanceHistory.get_balance_history user_id user_type page
            page_size w) = w
  /\ (DatabaseService.sqlite_int page_size = true ->
      DatabaseService.sqlite_int ((page - 1) * page_size) = true ->
      (forall e, In e (balance_transactions w) ->
                 BalanceHistory.entry_matches user_id user_type e = true ->
                 exists t, BalanceHistory.transaction_of_row e = inr t) ->
      fst (BalanceHistory.get_balance_history user_id user_type page
             page_size w)
      = Raise (ValidationError
                 ((if page <? 1 then ["page"] else [])
                  ++ (if (page_size <? 1) || (100 <? page_size)
                      then ["page_size"] else []))%list)).
Proof.
  intros H. rewrite get_balance_history_eq. cbn [fst snd].
  split; [|split; [reflexivity|]].
  - intros r.
    destruct (DatabaseService.bind_parameters _) as [e|[]]; [discriminate|].
    destruct (comprehension _ _) as [e|transactions]; [discriminate|].
    rewrite BalanceHistoryResponse_new_paging by (auto; lia).
    discriminate.
  - intros H1 H2 Hall.
    unfold DatabaseService.bind_parameters. cbn [forallb].
    rewrite H1, H2. cbn [andb].
    destruct (comprehension_total BalanceHistory.transaction_of_row
                (BalanceHistory.txn_query user_id user_type page_size
                   ((page - 1) * page_size) w)) as [transactions ->].
    { intros row Hin. unfold BalanceHistory.txn_query in Hin.
      apply In_sql_limit_offset in Hin.
      apply -> In_order_by_timestamp_desc in Hin.
      apply filter_In in Hin as [Hin Hm]. now apply Hall. }
    now rewrite BalanceHistoryResponse_new_paging by (auto; lia).
Qed.

(** Page 0 of an account with two stored entries. *)
Lemma get_balance_history_rejects_paging_witness :
  0 < 1
  /\ (forall r,
        fst (BalanceHistory.get_balance_history "alice" "discord" 0 10
               two_entries_world) <> Ok r)
  /\ fst (BalanceHistory.get_balance_history "alice" "discord" 0 10
            two_entries_world)
     = Raise (ValidationError ["page"]).
Proof.
  split; [lia|].
  destruct (get_balance_history_rejects_paging "alice" "discord" 0 10
              two_entries_world) as (Hno & _ & Hraise); [left; lia|].
  split; [exact Hno|].
  rewrite Hraise; [reflexivity|reflexivity|reflexivity|].
  intros e [<-|[<-|[]]] _; eexists; reflexivity.
Defined.

Lemma insert_desc_sorted (t : TxnRow.t) (l : list TxnRow.t) :
  StronglySorted newest_first l ->
  StronglySorted newest_first (BalanceHistory.insert_desc t l).
Proof.
  induction 1 as [|x l Hs IH Hx]; cbn [BalanceHistory.insert_desc].
  - constructor; constructor.
  - destruct (TxnRow.timestamp x <=? TxnRow.timestamp t) eqn:E.
    + apply Z.leb_le in E. constructor; [now constructor|].
      constructor; [exact E|].
      eapply Forall_impl; [|exact Hx].
      intros b Hb. unfold newest_first in *. lia.
    + apply Z.leb_gt in E. constructor; [exact IH|].
      apply Forall_forall. intros b Hb.
      apply In_insert_desc in Hb as [->|Hb].
      * unfold newest_first. lia.
      * rewrite Forall_forall in Hx. now apply Hx.
Qed.

Lemma order_by_timestamp_desc_sorted (l : list TxnRow.t) :
  StronglySorted newest_first (BalanceHistory.order_by_timestamp_desc l).
Proof.
  unfold BalanceHistory.order_by_timestamp_desc.
  induction l as [|x l IH]; cbn [fold_right]; [constructor|].
  now apply insert_desc_sorted.
Qed.

Lemma StronglySorted_app_inv {A} (R : A -> A -> Prop) (l1 l2 : list A) :
  StronglySorted R (l1 ++ l2) ->
  StronglySorted R l1 /\ StronglySorted R l2.
Proof.
  induction l1 as [|a l1 IH]; cbn [app]; intros H.
  - split; [constructor|exact H].
  - apply StronglySorted_inv in H as [Hs Ha].
    destruct (IH Hs) as [H1 H2]. split; [|exact H2].
    constructor; [exact H1|].
    apply Forall_app in Ha as [Ha _]. exact Ha.
Qed.

Lemma sql_limit_offset_sorted {A} (R : A -> A -> Prop) (limit offset : Z)
    (l : list A) :
  StronglySorted R l -> StronglySorted R (sql_limit_offset limit offset l).
Proof.
  intros H. unfold sql_limit_offset.
  assert (Hskip : StronglySorted R (skipn (Z.to_nat offset) l)).
  { rewrite <- (firstn_skipn (Z.to_nat offset) l) in H.
    now apply StronglySorted_app_inv in H as [_ H]. }
  destruct (limit <? 0); [exact Hskip|].
  rewrite <- (firstn_skipn (Z.to_nat limit) (skipn (Z.to_nat offset) l))
    in Hskip.
  now apply StronglySorted_app_inv in Hskip as [Hskip _].
Qed.

Lemma StronglySorted_Forall2 {A B} (R : A -> A -> Prop) (S : B -> B -> Prop)
    (P : A -> B -> Prop) (xs : list A) (ys : list B) :
  (forall a a' b b', P a b -> P a' b' -> R a a' -> S b b') ->
  Forall2 P xs ys -> StronglySorted R xs -> StronglySorted S ys.
Proof.
  intros HP H. induction H as [|x y xs ys Hxy Hrest IH]; intros Hs;
    [constructor|].
  apply StronglySorted_inv in Hs as [Hs Hx].
  constructor; [now apply IH|].
  apply Forall_forall. intros b Hb.
  destruct (Forall2_In_r _ _ _ _ Hrest Hb) as (a & Ha & Hab).
  rewrite Forall_forall in Hx. eapply HP; eauto.
Qed.

(** X9.  The history is listed newest first.  In every page
    [get_balance_history] returns, the transactions are in the order of
    their timestamps, the latest first; and the first transaction of page 1
    is a latest entry of the account: no stored entry of the account has a
    later timestamp. *)
Theorem get_balance_history_newest_first (user_id user_type : string)
    (page page_size : Z) (w : World) (r : BalanceHistoryResponse.t) :
  fst (BalanceHistory.get_balance_history user_id user_type page page_size w)
  = Ok r ->
  StronglySorted
    (fun a b => Transaction.timestamp b <= Transaction.timestamp a)
    (BalanceHistoryResponse.transactions r)
  /\ (page = 1 ->
      forall t rest,
        BalanceHistoryResponse.transactions r = t :: rest ->
        forall e,
          In e (balance_transactions w) ->
          BalanceHistory.entry_matches user_id user_type e = true ->
          TxnRow.timestamp e <= Transaction.timestamp t).
Proof.
  rewrite get_balance_history_eq. cbn [fst].
  destruct (DatabaseService.bind_parameters _) as [e|[]]; [discriminate|].
  destruct (comprehension _ _) as [e|transactions] eqn:Hc; [discriminate|].
  destruct (BalanceHistoryResponse.new _ _ _ _ _ _ _) as [e|r'] eqn:Hn;
    [discriminate|].
  intros H. injection H as <-.
  apply BalanceHistoryResponse_new_inr in Hn as (-> & _ & Hp & Hs).
  cbn [BalanceHistoryResponse.transactions].
  apply comprehension_inr in Hc.
  assert (Hsorted : StronglySorted newest_first
                      (BalanceHistory.order_by_timestamp_desc
                         (filter
                            (BalanceHistory.entry_matches user_id user_type)
                            (balance_transactions w))))
    by apply order_by_timestamp_desc_sorted.
  split.
  - eapply (StronglySorted_Forall2 newest_first); [|exact Hc|].
    + intros a a' b b' Ha Ha' HR.
      apply transaction_of_row_inr in Ha as ((_ & _ & _ & _ & _ & _ & Ha & _)
                                               & _).
      apply transaction_of_row_inr in Ha'
        as ((_ & _ & _ & _ & _ & _ & Ha' & _) & _).
      unfold newest_first in HR. rewrite Ha, Ha'. exact HR.
    + unfold BalanceHistory.txn_query. now apply sql_limit_offset_sorted.
  - intros -> t rest -> e Hin Hm.
    unfold BalanceHistory.txn_query, sql_limit_offset in Hc.
    replace ((1 - 1) * page_size) with 0 in Hc by lia.
    cbn [Z.to_nat skipn] in Hc.
    replace (page_size <? 0) with false in Hc
      by (symmetry; apply Z.ltb_ge; lia).
    assert (He : In e (BalanceHistory.order_by_timestamp_desc
                         (filter
                            (BalanceHistory.entry_matches user_id user_type)
                            (balance_transactions w)))).
    { apply In_order_by_timestamp_desc, filter_In. now split. }
    destruct (BalanceHistory.order_by_timestamp_desc _) as [|row rows];
      [contradiction|].
    destruct (Z.to_nat page_size) as [|n]; cbn [firstn] in Hc;
      [inversion Hc|].
    inversion Hc as [|? ? ? ? Hrow _]; subst.
    apply transaction_of_row_inr in Hrow
      as ((_ & _ & _ & _ & _ & _ & Hrow & _) & _).
    rewrite Hrow.
    apply StronglySorted_inv in Hsorted as [_ Hall].
    destruct He as [->|He]; [lia|].
    rewrite Forall_forall in Hall. now apply Hall.
Qed.

(** Two entries stored at times 3 and 8 are listed at 8, then 3. *)
Lemma get_balance_history_newest_first_witness :
  exists r,
    fst (BalanceHistory.get_balance_history "alice" "discord" 1 10
           two_entries_world) = Ok r
    /\ map TxnRow.timestamp (balance_transactions two_entries_world)
       = [3; 8]
    /\ map Transaction.timestamp (BalanceHistoryResponse.transactions r)
       = [8; 3]
    /\ StronglySorted
         (fun a b => Transaction.timestamp b <= Transaction.timestamp a)
         (BalanceHistoryResponse.transactions r).
Proof.
  eexists. split; [vm_compute; reflexivity|].
  split; [reflexivity|]. split; [reflexivity|].
  apply (get_balance_history_newest_first "alice" "discord" 1 10
           two_entries_world).
  vm_compute. reflexivity.
Defined.

(** X10.  The history of a web account with a stored entry in a game
    currency cannot be read: when the first page is large enough to hold
    every entry of the account, [get_balance_history] raises the validation
    error of [Transaction] ("Web users can only access Rupiah currency")
    or of an entry before it, and returns no page. *)
Theorem get_balance_history_web_game_entry (user_id : string)
    (page_size : Z) (w : World) (e : TxnRow.t) :
  In e (balance_transactions w) ->
  BalanceHistory.entry_matches user_id "web" e = true ->
  TxnRow.currency_type e <> RUPIAH ->
  Z.of_nat (List.length
              (filter (BalanceHistory.entry_matches user_id "web")
                      (balance_transactions w))) <= page_size ->
  page_size < 2 ^ 63 ->
  exists fields,
    BalanceHistory.get_balance_history user_id "web" 1 page_size w
    = (Raise (ValidationError fields), w).
Proof.
  intros Hin Hm Hcur Hsize Hfit.
  rewrite get_balance_history_eq.
  assert (He : In e (BalanceHistory.order_by_timestamp_desc
                       (filter (BalanceHistory.entry_matches user_id "web")
                               (balance_transactions w)))).
  { apply In_order_by_timestamp_desc, filter_In. now split. }
  assert (Hlen : (1 <= List.length
                        (filter (BalanceHistory.entry_matches user_id "web")
                                (balance_transactions w)))%nat).
  { rewrite <- length_order_by_timestamp_desc.
    destruct (BalanceHistory.order_by_timestamp_desc _);
      [contradiction|cbn; lia]. }
  replace ((1 - 1) * page_size) with 0 by lia.
  unfold DatabaseService.bind_parameters, DatabaseService.sqlite_int.
  cbn [forallb].
  replace (- 2 ^ 63 <=? page_size) with true
    by (symmetry; apply Z.leb_le; lia).
  replace (page_size <? 2 ^ 63) with true by (symmetry; now apply Z.ltb_lt).
  replace (- 2 ^ 63 <=? 0) with true by reflexivity.
  replace (0 <? 2 ^ 63) with true by reflexivity.
  cbn [andb].
  assert (Hrows : BalanceHistory.txn_query user_id "web" page_size 0 w
                  = BalanceHistory.order_by_timestamp_desc
                      (filter (BalanceHistory.entry_matches user_id "web")
                              (balance_transactions w))).
  { unfold BalanceHistory.txn_query, sql_limit_offset.
    cbn [Z.to_nat skipn].
    replace (page_size <? 0) with false by (symmetry; apply Z.ltb_ge; lia).
    apply firstn_all2. rewrite length_order_by_timestamp_desc. lia. }
  rewrite Hrows.
  assert (Hrow : exists fields,
             BalanceHistory.transaction_of_row e
             = inl (ValidationError fields)).
  { apply entry_matches_iff in Hm as [_ Hweb].
    unfold BalanceHistory.transaction_of_row, Transaction.new,
      Transaction.check_currency_type.
    rewrite Hweb. cbn [String.eqb Ascii.eqb Bool.eqb andb].
    replace (CurrencyType_eqb (TxnRow.currency_type e) RUPIAH) with false
      by (destruct (TxnRow.currency_type e); try reflexivity; contradiction).
    cbn [negb app]. now eexists. }
  destruct Hrow as [fields0 Hrow].
  destruct (comprehension_raises _ _ _ _ He Hrow) as [e' Hc].
  rewrite Hc.
  apply comprehension_inl in Hc as (row & _ & Hrow').
  apply transaction_of_row_inl in Hrow' as [fields ->]. now exists fields.
Qed.

(** The web account "wendy" with its one entry in World Locks. *)
Lemma get_balance_history_web_game_entry_witness :
  In web_entry (balance_transactions web_entry_world)
  /\ TxnRow.currency_type web_entry = WL
  /\ exists fields,
       BalanceHistory.get_balance_history "wendy" "web" 1 10 web_entry_world
       = (Raise (ValidationError fields), web_entry_world).
Proof.
  split; [now left|]. split; [reflexivity|].
  apply (get_balance_history_web_game_entry "wendy" 10 web_entry_world
           web_entry);
    [now left|reflexivity|discriminate|cbn; lia|reflexivity].
Defined.

(** ** Conversion requests and rules *)

(** X11.  A conversion request is accepted exactly when the platform is
    discord, the source is a game currency, the target is the rupiah and
    the amount is positive; the accepted request carries the arguments. *)
Theorem ConversionRequest_accepted_iff (user_id user_type : string)
    (from_currency to_currency : CurrencyType) (amount : Z) :
  ((exists request,
      ConversionRequest.new user_id user_type from_currency to_currency
        amount = inr request)
   <-> (user_type = "discord" /\ from_currency <> RUPIAH
        /\ to_currency = RUPIAH /\ 0 < amount))
  /\ forall request,
       ConversionRequest.new user_id user_type from_currency to_currency
         amount = inr request ->
       request = ConversionRequest.mk user_id user_type from_currency
                   to_currency amount.
Proof.
  unfold ConversionRequest.new, ConversionRequest.check_user_type,
    ConversionRequest.check_to_currency, ConversionRequest.check_amount.
  split; [split|].
  - intros [request H].
    destruct (String.eqb user_type "discord") eqn:Hu; [|discriminate].
    apply String.eqb_eq in Hu.
    destruct (amount <=? 0) eqn:Ha.
    { destruct from_currency, to_currency; discriminate. }
    apply Z.leb_gt in Ha.
    destruct from_currency, to_currency; try discriminate;
      repeat split; auto; discriminate.
  - intros (-> & Hf & -> & Ha).
    apply Z.leb_gt in Ha. rewrite Ha.
    destruct from_currency; try contradiction; now eexists.
  - intros request.
    destruct (_ ++ _)%list; [|discriminate].
    intros H. now injection H as <-.
Qed.

(** X12.  [validate_conversion_rules] and the validators of the conversion
    request agree: for a positive amount the rules hold exactly when the
    request is accepted, and a request the rules accept passes the two
    direction checks at the start of [convert_currency]. *)
Theorem validate_conversion_rules_agrees (user_id user_type : string)
    (from_currency to_currency : CurrencyType) (amount : Z) :
  0 < amount ->
  (CurrencyUtils.validate_conversion_rules user_type from_currency
     to_currency = true
   <-> exists request,
         ConversionRequest.new user_id user_type from_currency to_currency
           amount = inr request)
  /\ (CurrencyUtils.validate_conversion_rules user_type from_currency
        to_currency = true ->
      CurrencyType_eqb from_currency RUPIAH = false
      /\ negb (CurrencyType_eqb to_currency RUPIAH) = false).
Proof.
  intros Ha.
  unfold CurrencyUtils.validate_conversion_rules, ConversionRequest.new,
    ConversionRequest.check_user_type, ConversionRequest.check_to_currency,
    ConversionRequest.check_amount.
  apply Z.leb_gt in Ha. rewrite Ha.
  destruct (String.eqb user_type "discord");
    destruct from_currency, to_currency; cbn;
    (split; [split; [try discriminate; intros _; now eexists
                    |try reflexivity; intros [r H]; discriminate]
            |try discriminate; auto]).
Qed.

Lemma validate_conversion_rules_agrees_witness :
  0 < 200
  /\ CurrencyUtils.validate_conversion_rules "discord" WL RUPIAH = true
  /\ exists request,
       ConversionRequest.new "alice" "discord" WL RUPIAH 200 = inr request.
Proof.
  split; [lia|]. split; [reflexivity|].
  apply (validate_conversion_rules_agrees "alice" "discord" WL RUPIAH 200);
    [lia|reflexivity].
Defined.

(** ** Conversion rates, continued *)

Lemma latest_In_max (l : list RateRow.t) (r : RateRow.t) :
  DatabaseService.latest l = Some r ->
  In r l /\ forall x, In x l -> RateRow.updated_at x <= RateRow.updated_at r.
Proof.
  revert r. induction l as [|a l IH]; intros r; cbn; [discriminate|].
  destruct (DatabaseService.latest l) as [r'|] eqn:Hl.
  - destruct (IH r' eq_refl) as [Hin Hmax].
    destruct (RateRow.updated_at a <? RateRow.updated_at r') eqn:E;
      intros H; injection H as <-.
    + apply Z.ltb_lt in E. split; [now right|].
      intros x [->|Hx]; [lia|now apply Hmax].
    + apply Z.ltb_ge in E. split; [now left|].
      intros x [->|Hx]; [lia|]. specialize (Hmax x Hx). lia.
  - intros H. injection H as <-. split; [now left|].
    destruct l as [|b l]; [|cbn in Hl; destruct (DatabaseService.latest l);
                             [destruct (_ <? _)|]; discriminate].
    intros x [->|[]]. lia.
Qed.

Lemma latest_None_iff (l : list RateRow.t) :
  DatabaseService.latest l = None <-> l = [].
Proof.
  destruct l as [|a l]; cbn; [tauto|].
  split; [|discriminate].
  destruct (DatabaseService.latest l); [destruct (_ <? _)|]; discriminate.
Qed.

Lemma latest_app_newest (l : list RateRow.t) (n : RateRow.t) :
  (forall x, In x l -> RateRow.updated_at x < RateRow.updated_at n) ->
  DatabaseService.latest (l ++ [n]) = Some n.
Proof.
  induction l as [|a l IH]; intros Hlt; cbn; [reflexivity|].
  rewrite IH by (intros x Hx; apply Hlt; now right).
  pose proof (Hlt a (or_introl eq_refl)) as Ha.
  apply Z.ltb_lt in Ha. now rewrite Ha.
Qed.

Lemma ConversionRate_new_inr (c : CurrencyType) (rate min_ max_ : Z)
    (active : bool) (at_ : timestamp) (by_ : string) (r : ConversionRate.t) :
  ConversionRate.new c rate min_ max_ active at_ by_ = inr r ->
  r = ConversionRate.mk c rate min_ max_ active at_ by_
  /\ c <> RUPIAH /\ 0 < rate /\ 1 <= min_ /\ 0 < max_.
Proof.
  unfold ConversionRate.new.
  destruct (CurrencyType_eqb c RUPIAH) eqn:H1; [discriminate|].
  destruct (rate <=? 0) eqn:H2; [discriminate|].
  destruct (min_ <? 1) eqn:H3; [discriminate|].
  destruct (max_ <=? 0) eqn:H4; [discriminate|].
  cbn. intros H. injection H as <-.
  apply Z.leb_gt in H2, H4. apply Z.ltb_ge in H3.
  repeat split; try lia. intros ->. discriminate.
Qed.

Lemma rate_matches_iff (c : CurrencyType) (r : RateRow.t) :
  DatabaseService.rate_matches c r = true
  <-> RateRow.currency r = c /\ RateRow.is_active r = true.
Proof.
  unfold DatabaseService.rate_matches. rewrite andb_true_iff.
  destruct (RateRow.currency r), c; cbn; intuition discriminate.
Qed.

(** The value and the world of a rate lookup. *)
Lemma get_conversion_rate_eq (c : CurrencyType) (w : World) :
  c <> RUPIAH ->
  ConversionService.get_conversion_rate c w
  = (match DatabaseService.latest (active_rows c w) with
     | None => Ok None
     | Some row =>
         match ConversionRate.new (RateRow.currency row)
                 (RateRow.rate_rupiah row) (RateRow.min_amount row)
                 (RateRow.max_amount row) (RateRow.is_active row)
                 (RateRow.updated_at row) (RateRow.updated_by row) with
         | inl e => Raise e
         | inr r => Ok (Some r)
         end
     end, emit (EvExecute (SelectActiveRate c)) w).
Proof.
  intros Hc. unfold ConversionService.get_conversion_rate.
  destruct (CurrencyType_eqb c RUPIAH) eqn:E;
    [destruct c; try discriminate; contradiction|].
  rewrite bind_eq, execute_query_fetch by reflexivity.
  cbn [DatabaseService.cursor_execute ConversionService.rate_rows fst snd].
  fold (active_rows c w).
  destruct (DatabaseService.latest (active_rows c w)) as [row|];
    [|reflexivity].
  cbn [DatabaseService.option_to_list]. rewrite bind_eq.
  destruct (ConversionRate.new _ _ _ _ _ _ _); reflexivity.
Qed.

(** A rate the lookup returns comes from the most recent active row. *)
Lemma get_conversion_rate_Some (c : CurrencyType) (w : World)
    (rate : ConversionRate.t) :
  fst (ConversionService.get_conversion_rate c w) = Ok (Some rate) ->
  c <> RUPIAH
  /\ exists row,
       DatabaseService.latest (active_rows c w) = Some row
       /\ rate = rate_of_row row
       /\ 0 < RateRow.rate_rupiah row /\ 1 <= RateRow.min_amount row
       /\ 0 < RateRow.max_amount row.
Proof.
  intros H.
  assert (Hc : c <> RUPIAH).
  { intros ->. discriminate. }
  split; [exact Hc|]. rewrite (get_conversion_rate_eq c w Hc) in H.
  cbn [fst] in H.
  destruct (DatabaseService.latest (active_rows c w)) as [row|];
    [|discriminate].
  destruct (ConversionRate.new _ _ _ _ _ _ _) as [e|r] eqn:Hn;
    [discriminate|].
  injection H as <-.
  apply ConversionRate_new_inr in Hn as (-> & _ & H1 & H2 & H3).
  exists row. repeat split; assumption.
Qed.

(** X13.  A rate [get_conversion_rate] returns is an active rate of the
    currency asked for, never of the rupiah, with a positive price and
    bounds [min_amount >= 1], [max_amount > 0]; it is a stored active row,
    and no active row of that currency is more recent. *)
Theorem get_conversion_rate_sound (c : CurrencyType) (w : World)
    (rate : ConversionRate.t) :
  fst (ConversionService.get_conversion_rate c w) = Ok (Some rate) ->
  ConversionRate.currency rate = c
  /\ c <> RUPIAH
  /\ ConversionRate.is_active rate = true
  /\ 0 < ConversionRate.rate_rupiah rate
  /\ 1 <= ConversionRate.min_amount rate
  /\ 0 < ConversionRate.max_amount rate
  /\ (exists row, In row (conversion_rates w) /\ rate = rate_of_row row)
  /\ (forall row,
        In row (conversion_rates w) ->
        RateRow.currency row = c -> RateRow.is_active row = true ->
        RateRow.updated_at row <= ConversionRate.updated_at rate).
Proof.
  intros H.
  apply get_conversion_rate_Some in H
    as (Hc & row & Hl & -> & H1 & H2 & H3).
  apply latest_In_max in Hl as [Hin Hmax].
  unfold active_rows in Hin, Hmax.
  apply filter_In in Hin as [Hin Hm].
  apply rate_matches_iff in Hm as [Hcur Hact].
  cbn [rate_of_row ConversionRate.currency ConversionRate.is_active
       ConversionRate.rate_rupiah ConversionRate.min_amount
       ConversionRate.max_amount ConversionRate.updated_at].
  repeat (split; [assumption|]).
  split; [exists row; split; [exact Hin|reflexivity]|].
  intros row' Hin' Hc' Ha'. apply Hmax. apply filter_In.
  split; [exact Hin'|]. now apply rate_matches_iff.
Qed.

Lemma get_conversion_rate_sound_witness :
  fst (ConversionService.get_conversion_rate WL conversion_world)
  = Ok (Some (ConversionRate.mk WL 5000 1 10000 true 0 "fdygg"))
  /\ 0 < 5000.
Proof.
  split; [reflexivity|].
  destruct (get_conversion_rate_sound WL conversion_world
              (ConversionRate.mk WL 5000 1 10000 true 0 "fdygg") eq_refl)
    as (_ & _ & _ & H & _).
  exact H.
Defined.

(** X14.  For a game currency, [get_conversion_rate] returns [None] exactly
    when the currency has no active row; inactive rows and rows of other
    currencies do not count. *)
Theorem get_conversion_rate_none_iff (c : CurrencyType) (w : World) :
  c <> RUPIAH ->
  (fst (ConversionService.get_conversion_rate c w) = Ok None
   <-> forall row,
         In row (conversion_rates w) ->
         RateRow.currency row = c -> RateRow.is_active row = false).
Proof.
  intros Hc. rewrite (get_conversion_rate_eq c w Hc). cbn [fst].
  destruct (DatabaseService.latest (active_rows c w)) as [row|] eqn:Hl.
  - split.
    + destruct (ConversionRate.new _ _ _ _ _ _ _); discriminate.
    + intros Hnone. apply latest_In_max in Hl as [Hin _].
      apply filter_In in Hin as [Hin Hm].
      apply rate_matches_iff in Hm as [Hcur Hact].
      rewrite (Hnone row Hin Hcur) in Hact. discriminate.
  - split; [|reflexivity]. intros _ row Hin Hcur.
    apply latest_None_iff in Hl.
    destruct (RateRow.is_active row) eqn:Hact; [|reflexivity].
    assert (Hf : In row (active_rows c w)).
    { apply filter_In. split; [exact Hin|]. now apply rate_matches_iff. }
    rewrite Hl in Hf. destruct Hf.
Qed.

Lemma get_conversion_rate_none_iff_witness :
  WL <> RUPIAH
  /\ fst (ConversionService.get_conversion_rate WL (world_of 100)) = Ok None.
Proof.
  split; [discriminate|].
  apply (get_conversion_rate_none_iff WL (world_of 100)); [discriminate|].
  intros row Hin. destruct Hin.
Defined.

(** The world after the INSERT of an accepted rate update. *)
Lemma update_conversion_rate_accepted (currency : CurrencyType)
    (rate_rupiah min_amount max_amount : Z) (updated_by : string)
    (w : World) :
  rate_accepted currency rate_rupiah min_amount max_amount = true ->
  forallb DatabaseService.sqlite_int [rate_rupiah; min_amount; max_amount]
  = true ->
  exists w1,
    conversion_rates w1
    = (conversion_rates w
       ++ [RateRow.mk currency rate_rupiah min_amount max_amount true
             (clock w) updated_by])%list
    /\ ConversionService.update_conversion_rate currency rate_rupiah
         min_amount max_amount updated_by w
       = (match fst (ConversionService.get_conversion_rate currency w1) with
          | Raise _ => Ok None
          | r => r
          end,
          snd (ConversionService.get_conversion_rate currency w1)).
Proof.
  unfold rate_accepted, ConversionService.update_conversion_rate.
  intros H Hfit. rewrite try_except_eq.
  destruct (CurrencyType_eqb currency RUPIAH); [discriminate|].
  destruct (rate_rupiah <=? 0); [discriminate|].
  destruct (min_amount <? 1); [discriminate|].
  destruct (max_amount <=? min_amount); [discriminate|].
  rewrite bind_eq. unfold datetime_now at 1. cbv beta iota.
  rewrite bind_eq, execute_query_write by exact Hfit. cbv beta iota.
  exists (emit EvCommit
            (emit (EvExecute
                     (InsertConversionRate
                        (RateRow.mk currency rate_rupiah min_amount
                           max_amount true (clock w) updated_by)))
               (snd (DatabaseService.cursor_execute
                       (InsertConversionRate
                          (RateRow.mk currency rate_rupiah min_amount
                             max_amount true (clock w) updated_by))
                       (set_clock w (clock w + 1)))))).
  split; [reflexivity|].
  destruct (ConversionService.get_conversion_rate currency _)
    as [[o|e|] w2]; reflexivity.
Qed.

(** Accepted arguments of which one does not fit 64 bits: the clock has
    been read, the INSERT raises and the [except] returns [None]. *)
Lemma update_conversion_rate_overflow (currency : CurrencyType)
    (rate_rupiah min_amount max_amount : Z) (updated_by : string)
    (w : World) :
  rate_accepted currency rate_rupiah min_amount max_amount = true ->
  forallb DatabaseService.sqlite_int [rate_rupiah; min_amount; max_amount]
  = false ->
  ConversionService.update_conversion_rate currency rate_rupiah min_amount
    max_amount updated_by w
  = (Ok None, set_clock w (clock w + 1)).
Proof.
  unfold rate_accepted, ConversionService.update_conversion_rate.
  intros H Hfit. rewrite try_except_eq.
  destruct (CurrencyType_eqb currency RUPIAH); [discriminate|].
  destruct (rate_rupiah <=? 0); [discriminate|].
  destruct (min_amount <? 1); [discriminate|].
  destruct (max_amount <=? min_amount); [discriminate|].
  rewrite bind_eq. unfold datetime_now at 1. cbv beta iota.
  rewrite bind_eq, execute_query_overflow by exact Hfit. reflexivity.
Qed.

Lemma rate_accepted_iff (currency : CurrencyType)
    (rate_rupiah min_amount max_amount : Z) :
  rate_accepted currency rate_rupiah min_amount max_amount = true
  <-> currency <> RUPIAH /\ 0 < rate_rupiah /\ 1 <= min_amount
      /\ min_amount < max_amount.
Proof.
  unfold rate_accepted.
  rewrite !andb_true_iff, !negb_true_iff, !Z.leb_gt, Z.ltb_ge.
  destruct currency; cbn; intuition (try discriminate; try congruence).
Qed.

Lemma update_conversion_rate_not_accepted (currency : CurrencyType)
    (rate_rupiah min_amount max_amount : Z) (updated_by : string)
    (w : World) :
  rate_accepted currency rate_rupiah min_amount max_amount = false ->
  ConversionService.update_conversion_rate currency rate_rupiah min_amount
    max_amount updated_by w
  = (Ok None, w).
Proof.
  unfold rate_accepted, ConversionService.update_conversion_rate.
  intros H. rewrite try_except_eq.
  destruct (CurrencyType_eqb currency RUPIAH); [reflexivity|].
  destruct (rate_rupiah <=? 0); [reflexivity|].
  destruct (min_amount <? 1); [reflexivity|].
  destruct (max_amount <=? min_amount); [reflexivity|].
  discriminate.
Qed.

(** X15.  A rate update that fails one of its checks (the rupiah as
    currency, a price that is not positive, a minimum below 1, a maximum
    not above the minimum) returns [None] and leaves the world exactly as
    it was: no statement is sent and no time is read. *)
Theorem update_conversion_rate_rejected (currency : CurrencyType)
    (rate_rupiah min_amount max_amount : Z) (updated_by : string)
    (w : World) :
  currency = RUPIAH \/ rate_rupiah <= 0 \/ min_amount < 1
  \/ max_amount <= min_amount ->
  ConversionService.update_conversion_rate currency rate_rupiah min_amount
    max_amount updated_by w
  = (Ok None, w).
Proof.
  intros H. apply update_conversion_rate_not_accepted.
  destruct (rate_accepted currency rate_rupiah min_amount max_amount)
    eqn:Hacc; [|reflexivity].
  apply rate_accepted_iff in Hacc as (H1 & H2 & H3 & H4).
  destruct H as [H|[H|[H|H]]]; [contradiction|lia|lia|lia].
Qed.

Lemma update_conversion_rate_rejected_witness :
  5 <= 5
  /\ ConversionService.update_conversion_rate WL 5000 5 5 "fdygg"
       conversion_world
     = (Ok None, conversion_world).
Proof.
  split; [lia|].
  apply (update_conversion_rate_rejected WL 5000 5 5 "fdygg"
           conversion_world).
  right. right. right. lia.
Defined.

Lemma active_rows_ext (c : CurrencyType) (w1 w2 : World) :
  conversion_rates w1 = conversion_rates w2 ->
  active_rows c w1 = active_rows c w2.
Proof. unfold active_rows. now intros ->. Qed.

Lemma get_conversion_rate_ext (c : CurrencyType) (w1 w2 : World) :
  active_rows c w1 = active_rows c w2 ->
  fst (ConversionService.get_conversion_rate c w1)
  = fst (ConversionService.get_conversion_rate c w2).
Proof.
  intros H. destruct (CurrencyType_eqb c RUPIAH) eqn:E.
  - destruct c; try discriminate. reflexivity.
  - assert (Hc : c <> RUPIAH) by (intros ->; discriminate).
    rewrite !(get_conversion_rate_eq c _ Hc). cbn [fst]. now rewrite H.
Qed.

Lemma get_conversion_rate_rates (c : CurrencyType) (w : World) :
  conversion_rates (snd (ConversionService.get_conversion_rate c w))
  = conversion_rates w.
Proof.
  destruct (get_conversion_rate_reads c w) as (_ & _ & H & _). exact H.
Qed.

(** X16.  Update then look up.  A rate update that passes its checks, with
    a price and a maximum that fit SQLite's 64-bit INTEGER (below [2^63];
    the checks make all three integers positive), made at a time later than
    the active rows of the currency, returns the rate it was given, active
    and stamped with the time of the call; a lookup of the currency made
    right after returns that same rate. *)
Theorem update_conversion_rate_round_trip (currency : CurrencyType)
    (rate_rupiah min_amount max_amount : Z) (updated_by : string)
    (w : World) :
  currency <> RUPIAH -> 0 < rate_rupiah -> 1 <= min_amount ->
  min_amount < max_amount ->
  rate_rupiah < 2 ^ 63 -> max_amount < 2 ^ 63 ->
  (forall row, In row (conversion_rates w) ->
               RateRow.currency row = currency ->
               RateRow.is_active row = true ->
               RateRow.updated_at row < clock w) ->
  fst (ConversionService.update_conversion_rate currency rate_rupiah
         min_amount max_amount updated_by w)
  = Ok (Some (ConversionRate.mk currency rate_rupiah min_amount max_amount
                true (clock w) updated_by))
  /\ fst (ConversionService.get_conversion_rate currency
            (snd (ConversionService.update_conversion_rate currency
                    rate_rupiah min_amount max_amount updated_by w)))
     = Ok (Some (ConversionRate.mk currency rate_rupiah min_amount
                   max_amount true (clock w) updated_by)).
Proof.
  intros Hc Hr Hmin Hmax Hfit1 Hfit2 Hlate.
  assert (Hacc : rate_accepted currency rate_rupiah min_amount max_amount
                 = true) by (apply rate_accepted_iff; auto).
  assert (Hfit : forallb DatabaseService.sqlite_int
                   [rate_rupiah; min_amount; max_amount] = true).
  { unfold DatabaseService.sqlite_int. cbn [forallb].
    rewrite !andb_true_iff, !Z.leb_le, !Z.ltb_lt. lia. }
  destruct (update_conversion_rate_accepted currency rate_rupiah min_amount
              max_amount updated_by w Hacc Hfit) as (w1 & Hrates & Heq).
  assert (Hlookup :
            fst (ConversionService.get_conversion_rate currency w1)
            = Ok (Some (ConversionRate.mk currency rate_rupiah min_amount
                          max_amount true (clock w) updated_by))).
  { rewrite (get_conversion_rate_eq currency w1 Hc). cbn [fst].
    unfold active_rows. rewrite Hrates, filter_app. cbn [filter].
    assert (Hm : DatabaseService.rate_matches currency
                   (RateRow.mk currency rate_rupiah min_amount max_amount
                      true (clock w) updated_by) = true)
      by (now apply rate_matches_iff).
    rewrite Hm, latest_app_newest.
    2: { intros x Hx. apply filter_In in Hx as [Hin Hx].
         apply rate_matches_iff in Hx as [Hcur Hact].
         cbn [RateRow.updated_at]. now apply Hlate. }
    unfold ConversionRate.new.
    cbn [RateRow.currency RateRow.rate_rupiah RateRow.min_amount
         RateRow.max_amount RateRow.is_active RateRow.updated_at
         RateRow.updated_by].
    replace (CurrencyType_eqb currency RUPIAH) with false
      by (destruct currency; try reflexivity; contradiction).
    replace (rate_rupiah <=? 0) with false by (symmetry; apply Z.leb_gt; lia).
    replace (min_amount <? 1) with false by (symmetry; apply Z.ltb_ge; lia).
    replace (max_amount <=? 0) with false by (symmetry; apply Z.leb_gt; lia).
    reflexivity. }
  rewrite Heq. cbn [fst snd]. rewrite Hlookup. split; [reflexivity|].
  rewrite <- Hlookup. apply get_conversion_rate_ext, active_rows_ext.
  apply get_conversion_rate_rates.
Qed.

Lemma update_conversion_rate_round_trip_witness :
  (forall row, In row (conversion_rates conversion_world) ->
               RateRow.currency row = WL ->
               RateRow.is_active row = true ->
               RateRow.updated_at row < clock conversion_world)
  /\ fst (ConversionService.update_conversion_rate WL 6000 2 500 "fdygg"
            conversion_world)
     = Ok (Some (ConversionRate.mk WL 6000 2 500 true 10 "fdygg")).
Proof.
  assert (Hlate : forall row,
             In row (conversion_rates conversion_world) ->
             RateRow.currency row = WL ->
             RateRow.is_active row = true ->
             RateRow.updated_at row < clock conversion_world).
  { intros row [<-|[]] _ _. cbn. lia. }
  split; [exact Hlate|].
  apply (update_conversion_rate_round_trip WL 6000 2 500 "fdygg"
           conversion_world);
    [discriminate|lia|lia|lia|reflexivity|reflexivity|exact Hlate].
Defined.

(** X17.  Rates of different currencies do not interfere: whatever a rate
    update for one currency does, the lookup of every other currency
    returns afterwards what it returned before. *)
Theorem update_conversion_rate_other_currency (currency c' : CurrencyType)
    (rate_rupiah min_amount max_amount : Z) (updated_by : string)
    (w : World) :
  c' <> currency ->
  fst (ConversionService.get_conversion_rate c'
         (snd (ConversionService.update_conversion_rate currency rate_rupiah
                 min_amount max_amount updated_by w)))
  = fst (ConversionService.get_conversion_rate c' w).
Proof.
  intros Hne. apply get_conversion_rate_ext.
  destruct (rate_accepted currency rate_rupiah min_amount max_amount)
    eqn:Hacc.
  - destruct (forallb DatabaseService.sqlite_int
                [rate_rupiah; min_amount; max_amount]) eqn:Hfit.
    + destruct (update_conversion_rate_accepted currency rate_rupiah
                  min_amount max_amount updated_by w Hacc Hfit)
        as (w1 & Hrates & Heq).
      rewrite Heq. cbn [snd]. unfold active_rows.
      rewrite get_conversion_rate_rates, Hrates, filter_app. cbn [filter].
      replace (DatabaseService.rate_matches c' _) with false;
        [now rewrite app_nil_r|].
      unfold DatabaseService.rate_matches. cbn [RateRow.currency].
      destruct currency, c'; try reflexivity; contradiction.
    + now rewrite (update_conversion_rate_overflow currency rate_rupiah
                     min_amount max_amount updated_by w Hacc Hfit).
  - now rewrite (update_conversion_rate_not_accepted currency rate_rupiah
                   min_amount max_amount updated_by w Hacc).
Qed.

Lemma update_conversion_rate_other_currency_witness :
  WL <> DL
  /\ fst (ConversionService.get_conversion_rate WL
            (snd (ConversionService.update_conversion_rate DL 90000 1 100
                    "fdygg" conversion_world)))
     = Ok (Some (ConversionRate.mk WL 5000 1 10000 true 0 "fdygg")).
Proof.
  split; [discriminate|].
  rewrite (update_conversion_rate_other_currency DL WL 90000 1 100 "fdygg"
             conversion_world); [reflexivity|discriminate].
Defined.

(** ** The answers of [convert_currency] *)

Lemma CurrencyType_eqb_false (a b : CurrencyType) :
  a <> b -> CurrencyType_eqb a b = false.
Proof. destruct a, b; intros H; try reflexivity; contradiction. Qed.

Lemma get_conversion_rate_active (c : CurrencyType) (w : World)
    (rate : ConversionRate.t) :
  fst (ConversionService.get_conversion_rate c w) = Ok (Some rate) ->
  ConversionRate.is_active rate = true.
Proof.
  intros H. apply get_conversion_rate_Some in H as (_ & row & Hl & -> & _).
  apply latest_In_max in Hl as [Hin _].
  apply filter_In in Hin as [_ Hm].
  now apply rate_matches_iff in Hm as [_ Hact].
Qed.

(** X18.  A conversion from a game currency without an active rate is
    answered by [(False, "No conversion rate found for <currency>", None)],
    whoever asks and whatever the amount. *)
Theorem convert_currency_no_rate (request : ConversionRequest.t)
    (w : World) :
  ConversionRequest.from_currency request <> RUPIAH ->
  ConversionRequest.to_currency request = RUPIAH ->
  (forall row, In row (conversion_rates w) ->
               RateRow.currency row = ConversionRequest.from_currency request ->
               RateRow.is_active row = false) ->
  fst (ConversionService.convert_currency request w)
  = Ok (false,
        "No conversion rate found for "
        ++ CurrencyType_value (ConversionRequest.from_currency request),
        None).
Proof.
  intros Hfrom Hto Hnone.
  assert (Hrate : fst (ConversionService.get_conversion_rate
                         (ConversionRequest.from_currency request) w)
                  = Ok None).
  { rewrite (get_conversion_rate_eq _ w Hfrom). cbn [fst].
    destruct (DatabaseService.latest _) as [row|] eqn:Hl; [|reflexivity].
    apply latest_In_max in Hl as [Hin _].
    apply filter_In in Hin as [Hin Hm].
    apply rate_matches_iff in Hm as [Hcur Hact].
    rewrite (Hnone row Hin Hcur) in Hact. discriminate. }
  unfold ConversionService.convert_currency. rewrite try_except_eq.
  rewrite (CurrencyType_eqb_false _ _ Hfrom), Hto. cbn [CurrencyType_eqb negb].
  rewrite bind_eq.
  destruct (ConversionService.get_conversion_rate _ w) as [r w1].
  cbn [fst] in Hrate. subst r. reflexivity.
Qed.

Lemma convert_currency_no_rate_witness :
  ConversionRequest.from_currency (wl_request 200) <> RUPIAH
  /\ fst (ConversionService.convert_currency (wl_request 200) (world_of 100))
     = Ok (false, "No conversion rate found for wl", None).
Proof.
  split; [discriminate|].
  apply (convert_currency_no_rate (wl_request 200) (world_of 100));
    [discriminate|reflexivity|].
  intros row Hin. destruct Hin.
Defined.

(** X19.  With an active rate, an amount outside the bounds of the rate is
    answered by the bound that fails: below [min_amount] by
    ["Amount below minimum (<min>)"], above [max_amount] by
    ["Amount above maximum (<max>)"]; the account is not read. *)
Theorem convert_currency_out_of_range (request : ConversionRequest.t)
    (w : World) (rate : ConversionRate.t) :
  ConversionRequest.to_currency request = RUPIAH ->
  fst (ConversionService.get_conversion_rate
         (ConversionRequest.from_currency request) w) = Ok (Some rate) ->
  (ConversionRequest.amount request < ConversionRate.min_amount rate ->
   ConversionService.convert_currency request w
   = (Ok (false,
          "Amount below minimum ("
          ++ str_int (ConversionRate.min_amount rate) ++ ")", None),
      emit (EvExecute
              (SelectActiveRate (ConversionRequest.from_currency request)))
           w))
  /\ (ConversionRate.min_amount rate <= ConversionRequest.amount request ->
      ConversionRate.max_amount rate < ConversionRequest.amount request ->
      ConversionService.convert_currency request w
      = (Ok (false,
             "Amount above maximum ("
             ++ str_int (ConversionRate.max_amount rate) ++ ")", None),
         emit (EvExecute
                 (SelectActiveRate (ConversionRequest.from_currency request)))
              w)).
Proof.
  intros Hto Hrate.
  pose proof (get_conversion_rate_active _ _ _ Hrate) as Hact.
  pose proof (get_conversion_rate_Some _ _ _ Hrate) as [Hfrom _].
  pose proof (get_conversion_rate_eq _ w Hfrom) as Heq.
  unfold ConversionService.convert_currency. rewrite !try_except_eq.
  rewrite (CurrencyType_eqb_false _ _ Hfrom), Hto. cbn [CurrencyType_eqb negb].
  rewrite !bind_eq.
  destruct (ConversionService.get_conversion_rate _ w) as [r w1].
  cbn [fst] in Hrate. subst r.
  apply (f_equal snd) in Heq. cbn [snd] in Heq. subst w1.
  rewrite Hact. cbn [negb]. split.
  - intros Hlow. apply Z.ltb_lt in Hlow. now rewrite Hlow.
  - intros Hmin Hhigh. apply Z.ltb_ge in Hmin. apply Z.ltb_lt in Hhigh.
    now rewrite Hmin, Hhigh.
Qed.

Lemma convert_currency_out_of_range_witness :
  fst (ConversionService.get_conversion_rate WL conversion_world)
  = Ok (Some (ConversionRate.mk WL 5000 1 10000 true 0 "fdygg"))
  /\ fst (ConversionService.convert_currency (wl_request 20000)
            conversion_world)
     = Ok (false, "Amount above maximum (10000)", None).
Proof.
  split; [reflexivity|].
  destruct (convert_currency_out_of_range (wl_request 20000)
              conversion_world
              (ConversionRate.mk WL 5000 1 10000 true 0 "fdygg")
              eq_refl eq_refl) as [_ H].
  rewrite H; [reflexivity|cbn; lia|cbn; lia].
Defined.

(** X20.  With an active rate and an amount inside its bounds no conversion
    is carried out: an unknown account is answered by
    ["User balance not found"], every existing account by
    ["Conversion failed"], whatever it holds. *)
Theorem convert_currency_in_range (request : ConversionRequest.t)
    (w : World) (rate : ConversionRate.t) :
  ConversionRequest.to_currency request = RUPIAH ->
  fst (ConversionService.get_conversion_rate
         (ConversionRequest.from_currency request) w) = Ok (Some rate) ->
  ConversionRate.min_amount rate <= ConversionRequest.amount request
  <= ConversionRate.max_amount rate ->
  fst (ConversionService.convert_currency request w)
  = Ok (false,
        match account_row (ConversionRequest.user_id request)
                (ConversionRequest.user_type request) w with
        | None => "User balance not found"
        | Some _ => "Conversion failed"
        end, None).
Proof.
  intros Hto Hrate [Hmin Hmax].
  pose proof (get_conversion_rate_active _ _ _ Hrate) as Hact.
  pose proof (get_conversion_rate_Some _ _ _ Hrate) as [Hfrom _].
  pose proof (get_conversion_rate_reads
                (ConversionRequest.from_currency request) w) as (Hu & _).
  unfold ConversionService.convert_currency. rewrite try_except_eq.
  rewrite (CurrencyType_eqb_false _ _ Hfrom), Hto. cbn [CurrencyType_eqb negb].
  rewrite bind_eq.
  destruct (ConversionService.get_conversion_rate _ w) as [r w1].
  cbn [fst snd] in Hrate, Hu. subst r.
  rewrite Hact. cbn [negb].
  apply Z.ltb_ge in Hmin, Hmax. rewrite Hmin, Hmax.
  rewrite bind_eq.
  pose proof (get_balance_fst (ConversionRequest.user_id request)
                (ConversionRequest.user_type request) w1) as Hb.
  rewrite (account_row_ext _ _ w1 w Hu) in Hb.
  destruct (BalanceService.get_balance _ _ w1) as [rb w2].
  cbn [fst] in Hb. subst rb.
  destruct (account_row _ _ w) as [u|]; [|reflexivity].
  destruct (read_row u) as [[balance|]|e|] eqn:Hrow; try reflexivity.
  - rewrite bind_eq.
    destruct (BalanceResponse_has_no_currency_balance balance
                (ConversionRequest.from_currency request)) as [msg Hm].
    rewrite Hm. reflexivity.
  - now apply read_row_not_None in Hrow.
  - unfold read_row in Hrow.
    destruct (Balance.new _ _ _ _); [discriminate|].
    destruct (BalanceResponse.new _ _ _ _ _ _); discriminate.
Qed.

Lemma convert_currency_in_range_witness :
  fst (ConversionService.get_conversion_rate WL conversion_world)
  = Ok (Some (ConversionRate.mk WL 5000 1 10000 true 0 "fdygg"))
  /\ 1 <= 200 <= 10000
  /\ fst (ConversionService.convert_currency (wl_request 200)
            conversion_world)
     = Ok (false, "Conversion failed", None).
Proof.
  split; [reflexivity|]. split; [lia|].
  apply (convert_currency_in_range (wl_request 200) conversion_world
           (ConversionRate.mk WL 5000 1 10000 true 0 "fdygg") eq_refl
           eq_refl).
  cbn. lia.
Defined.

(** ** The listing of all rates *)

Lemma rate_entry_inr (row : RateRow.t) (kv : CurrencyType * ConversionRate.t) :
  ConversionRates.rate_entry row = inr kv ->
  kv = (RateRow.currency row, rate_of_row row)
  /\ RateRow.currency row <> RUPIAH.
Proof.
  unfold ConversionRates.rate_entry.
  destruct (ConversionRate.new _ _ _ _ _ _ _) as [e|r] eqn:Hn;
    [discriminate|].
  apply ConversionRate_new_inr in Hn as (-> & Hc & _).
  intros H. injection H as <-. split; [reflexivity|exact Hc].
Qed.

Lemma rate_entry_new (row : RateRow.t) :
  ConversionRates.rate_entry row
  = match ConversionRate.new (RateRow.currency row) (RateRow.rate_rupiah row)
            (RateRow.min_amount row) (RateRow.max_amount row)
            (RateRow.is_active row) (RateRow.updated_at row)
            (RateRow.updated_by row) with
    | inl e => inl e
    | inr r => inr (RateRow.currency row, r)
    end.
Proof. reflexivity. Qed.

Lemma comprehension_rate_entry (rows : list RateRow.t)
    (d : list (CurrencyType * ConversionRate.t)) :
  comprehension ConversionRates.rate_entry rows = inr d ->
  d = map (fun row => (RateRow.currency row, rate_of_row row)) rows
  /\ forall row, In row rows ->
       ConversionRates.rate_entry row
       = inr (RateRow.currency row, rate_of_row row).
Proof.
  intros H. apply comprehension_inr in H.
  induction H as [|row kv rows d Hrow _ IH]; [split; [reflexivity|easy]|].
  destruct IH as [-> IH].
  pose proof (rate_entry_inr row kv Hrow) as [-> _].
  split; [reflexivity|]. intros row' [<-|Hin]; [exact Hrow|now apply IH].
Qed.

Lemma partition_active (c : CurrencyType) (w : World) :
  ConversionRates.partition false c w = active_rows c w.
Proof.
  unfold ConversionRates.partition, active_rows. apply filter_ext.
  intros r. reflexivity.
Qed.

Lemma latest_partition_currency (inc : bool) (c : CurrencyType) (w : World)
    (row : RateRow.t) :
  DatabaseService.latest (ConversionRates.partition inc c w) = Some row ->
  RateRow.currency row = c.
Proof.
  intros H. apply latest_In_max in H as [Hin _].
  apply filter_In in Hin as [_ Hm]. apply andb_true_iff in Hm as [Hm _].
  destruct (RateRow.currency row), c; try discriminate; reflexivity.
Qed.

(** In the rows of the listing, the row of a currency is the first row of
    its partition. *)
Lemma find_all_rates_query (inc : bool) (c : CurrencyType) (w : World) :
  find (fun row => CurrencyType_eqb (RateRow.currency row) c)
       (ConversionRates.all_rates_query inc w)
  = DatabaseService.latest (ConversionRates.partition inc c w).
Proof.
  unfold ConversionRates.all_rates_query, ConversionRates.all_currencies.
  cbn [flat_map]. rewrite app_nil_r.
  pose proof (latest_partition_currency inc WL w) as HWL.
  pose proof (latest_partition_currency inc DL w) as HDL.
  pose proof (latest_partition_currency inc BGL w) as HBGL.
  pose proof (latest_partition_currency inc RUPIAH w) as HR.
  destruct c;
    destruct (DatabaseService.latest (ConversionRates.partition inc WL w))
      as [r1|];
    destruct (DatabaseService.latest (ConversionRates.partition inc DL w))
      as [r2|];
    destruct (DatabaseService.latest (ConversionRates.partition inc BGL w))
      as [r3|];
    destruct (DatabaseService.latest (ConversionRates.partition inc RUPIAH w))
      as [r4|];
    cbn [DatabaseService.option_to_list app find];
    repeat match goal with
           | H : forall row, Some ?r = Some row -> _ |- _ =>
               specialize (H r eq_refl)
           | H : forall row, None = Some row -> _ |- _ => clear H
           end;
    repeat match goal with
           | H : RateRow.currency ?r = _ |- _ => rewrite H; clear H
           end;
    reflexivity.
Qed.

Lemma dict_get_map (c : CurrencyType) (rows : list RateRow.t) :
  ConversionRates.dict_get c
    (map (fun row => (RateRow.currency row, rate_of_row row)) rows)
  = option_map rate_of_row
      (find (fun row => CurrencyType_eqb (RateRow.currency row) c) rows).
Proof.
  unfold ConversionRates.dict_get.
  induction rows as [|row rows IH]; cbn [map find fst]; [reflexivity|].
  destruct (CurrencyType_eqb (RateRow.currency row) c); [reflexivity|].
  exact IH.
Qed.

Lemma get_all_rates_eq (inc : bool) (w : World) :
  ConversionRates.get_all_rates inc w
  = (match comprehension ConversionRates.rate_entry
             (ConversionRates.all_rates_query inc w) with
     | inl e => Raise e
     | inr d => Ok d
     end, w).
Proof.
  unfold ConversionRates.get_all_rates, fetch_rows. rewrite bind_eq.
  change (DatabaseService.bind_parameters []) with (@inr exn unit tt).
  cbv beta iota. destruct (comprehension _ _); reflexivity.
Qed.

(** X21.  The listing of active rates agrees with the lookup: when
    [get_all_rates(include_inactive=False)] returns, its entry for every
    game currency is exactly what [get_conversion_rate] returns for that
    currency ([None] for a currency that is not listed), and the rupiah is
    not listed. *)
Theorem get_all_rates_agrees_with_lookup (w : World)
    (d : list (CurrencyType * ConversionRate.t)) :
  fst (ConversionRates.get_all_rates false w) = Ok d ->
  (forall c, c <> RUPIAH ->
     fst (ConversionService.get_conversion_rate c w)
     = Ok (ConversionRates.dict_get c d))
  /\ ConversionRates.dict_get RUPIAH d = None.
Proof.
  rewrite get_all_rates_eq. cbn [fst].
  destruct (comprehension _ _) as [e|d'] eqn:Hc; [discriminate|].
  intros H. injection H as <-.
  apply comprehension_rate_entry in Hc as [-> Hrows].
  split.
  - intros c Hne. rewrite (get_conversion_rate_eq c w Hne). cbn [fst].
    rewrite dict_get_map, find_all_rates_query.
    rewrite (partition_active c w).
    destruct (DatabaseService.latest (active_rows c w)) as [row|] eqn:Hl;
      [|reflexivity].
    assert (Hin : In row (ConversionRates.all_rates_query false w)).
    { pose proof (find_all_rates_query false c w) as Hf.
      rewrite (partition_active c w), Hl in Hf. now apply find_some in Hf. }
    pose proof (Hrows row Hin) as Hrow. rewrite rate_entry_new in Hrow.
    destruct (ConversionRate.new _ _ _ _ _ _ _) as [e|r]; [discriminate|].
    injection Hrow as ->. reflexivity.
  - rewrite dict_get_map, find_all_rates_query.
    destruct (DatabaseService.latest _) as [row|] eqn:Hl; [|reflexivity].
    exfalso.
    pose proof (latest_partition_currency _ _ _ _ Hl) as Hcur.
    assert (Hin : In row (ConversionRates.all_rates_query false w)).
    { pose proof (find_all_rates_query false RUPIAH w) as Hf.
      rewrite Hl in Hf. now apply find_some in Hf. }
    apply Hrows, rate_entry_inr in Hin as [_ Hne]. contradiction.
Qed.

Lemma get_all_rates_agrees_with_lookup_witness :
  fst (ConversionRates.get_all_rates false conversion_world)
  = Ok [(WL, ConversionRate.mk WL 5000 1 10000 true 0 "fdygg")]
  /\ fst (ConversionService.get_conversion_rate WL conversion_world)
     = Ok (Some (ConversionRate.mk WL 5000 1 10000 true 0 "fdygg")).
Proof.
  split; [reflexivity|].
  destruct (get_all_rates_agrees_with_lookup conversion_world
              [(WL, ConversionRate.mk WL 5000 1 10000 true 0 "fdygg")]
              eq_refl) as [H _].
  rewrite (H WL); [reflexivity|discriminate].
Defined.

(** X22.  One stored row for the rupiah breaks the whole listing: if
    conversion_rates holds a rupiah row that the listing selects (any such
    row with [include_inactive], an active one without), [get_all_rates]
    raises the validation error and returns no rate at all. *)
Theorem get_all_rates_raises_on_rupiah_row (include_inactive : bool)
    (w : World) (row : RateRow.t) :
  In row (conversion_rates w) ->
  RateRow.currency row = RUPIAH ->
  include_inactive = true \/ RateRow.is_active row = true ->
  exists fields,
    ConversionRates.get_all_rates include_inactive w
    = (Raise (ValidationError fields), w).
Proof.
  intros Hin Hcur Hsel. rewrite get_all_rates_eq.
  assert (Hpart : In row (ConversionRates.partition include_inactive RUPIAH w)).
  { apply filter_In. split; [exact Hin|]. rewrite Hcur. cbn [CurrencyType_eqb].
    unfold ConversionRates.selected.
    destruct Hsel as [->| ->]; [reflexivity|apply orb_true_r]. }
  destruct (DatabaseService.latest
              (ConversionRates.partition include_inactive RUPIAH w))
    as [first|] eqn:Hl.
  2: { apply latest_None_iff in Hl. rewrite Hl in Hpart. destruct Hpart. }
  pose proof (latest_partition_currency _ _ _ _ Hl) as Hfc.
  assert (Hq : In first (ConversionRates.all_rates_query include_inactive w)).
  { pose proof (find_all_rates_query include_inactive RUPIAH w) as Hf.
    rewrite Hl in Hf. now apply find_some in Hf. }
  assert (Hbad : exists e, ConversionRates.rate_entry first = inl e).
  { rewrite rate_entry_new. unfold ConversionRate.new. rewrite Hfc.
    cbn [CurrencyType_eqb app]. now eexists. }
  destruct Hbad as [e He].
  destruct (comprehension_raises _ _ _ _ Hq He) as [e' He'].
  rewrite He'. apply comprehension_inl in He' as (r & _ & Hr).
  rewrite rate_entry_new in Hr.
  destruct (ConversionRate.new _ _ _ _ _ _ _) as [e''|] eqn:Hn;
    [|discriminate].
  injection Hr as <-. unfold ConversionRate.new in Hn.
  destruct (_ ++ _)%list; [discriminate|]. injection Hn as <-.
  now eexists.
Qed.

Lemma get_all_rates_raises_on_rupiah_row_witness :
  In rupiah_row (conversion_rates rupiah_row_world)
  /\ RateRow.currency rupiah_row = RUPIAH
  /\ RateRow.is_active rupiah_row = true
  /\ exists fields,
       ConversionRates.get_all_rates false rupiah_row_world
       = (Raise (ValidationError fields), rupiah_row_world).
Proof.
  split; [right; left; reflexivity|]. split; [reflexivity|].
  split; [reflexivity|].
  apply (get_all_rates_raises_on_rupiah_row false rupiah_row_world
           rupiah_row); [right; left; reflexivity|reflexivity|].
  right. reflexivity.
Defined.

(** ** Platforms *)

(** X24.  Access to features by platform: whatever is open to a web
    account is open to a discord account; a platform other than these two
    has access to nothing; conversion is open to discord only; and every
    conversion [validate_conversion_rules] accepts is made from a platform
    that has access to the feature [convert_currency]. *)
Theorem validate_platform_access_consistent :
  (forall feature,
     PlatformUtils.validate_platform_access "web" feature = true ->
     PlatformUtils.validate_platform_access "discord" feature = true)
  /\ (forall platform feature,
        PlatformUtils.validate_platform_access platform feature = true ->
        platform = "discord" \/ platform = "web")
  /\ (forall platform,
        PlatformUtils.validate_platform_access platform "convert_currency"
        = true <-> platform = "discord")
  /\ (forall user_type from_currency to_currency,
        CurrencyUtils.validate_conversion_rules user_type from_currency
          to_currency = true ->
        PlatformUtils.validate_platform_access user_type "convert_currency"
        = true).
Proof.
  unfold PlatformUtils.validate_platform_access,
    PlatformUtils.platform_features.
  split; [|split; [|split]].
  - intros feature. cbn [String.eqb Ascii.eqb Bool.eqb existsb].
    rewrite !orb_false_r. intros ->. now rewrite !orb_true_r.
  - intros platform feature.
    destruct (String.eqb platform "discord") eqn:Hd;
      [apply String.eqb_eq in Hd; auto|].
    destruct (String.eqb platform "web") eqn:Hw;
      [apply String.eqb_eq in Hw; auto|].
    discriminate.
  - intros platform.
    destruct (String.eqb platform "discord") eqn:Hd.
    + apply String.eqb_eq in Hd. split; [auto|reflexivity].
    + apply String.eqb_neq in Hd.
      destruct (String.eqb platform "web"); cbn; split;
        try discriminate; contradiction.
  - intros user_type from_currency to_currency.
    unfold CurrencyUtils.validate_conversion_rules.
    destruct (String.eqb user_type "discord"); [reflexivity|discriminate].
Qed.

(** ** Amounts *)

(** X25.  The amount check of currency_utils against the balance request.
    An amount [validate_currency_amount] accepts is positive, so the
    request model accepts it; for the three game currencies the two checks
    coincide; for the rupiah the utility demands 1000, and every amount
    from 1 to 999 it refuses makes a valid balance request. *)
Theorem validate_currency_amount_vs_request (c : CurrencyType) (amount : Z)
    (t : TransactionType) :
  (CurrencyUtils.validate_currency_amount amount c = true ->
   BalanceUpdateRequest.new c amount t None
   = inr (BalanceUpdateRequest.mk c amount t None))
  /\ (c <> RUPIAH ->
      (exists req, BalanceUpdateRequest.new c amount t None = inr req) ->
      CurrencyUtils.validate_currency_amount amount c = true)
  /\ (0 < amount < 1000 ->
      CurrencyUtils.validate_currency_amount amount RUPIAH = false
      /\ BalanceUpdateRequest.new RUPIAH amount t None
         = inr (BalanceUpdateRequest.mk RUPIAH amount t None)).
Proof.
  unfold CurrencyUtils.validate_currency_amount, BalanceUpdateRequest.new,
    BalanceUpdateRequest.check_amount.
  cbn [BalanceUpdateRequest.check_reason app].
  split; [|split].
  - intros H. apply Z.leb_le in H.
    destruct (Z.leb_spec amount 0) as [Hle|_]; [|reflexivity].
    destruct c; cbn [CurrencyUtils.min_amounts] in H; lia.
  - intros Hc [req H].
    destruct (Z.leb_spec amount 0) as [_|Hpos]; [discriminate|].
    apply Z.leb_le.
    destruct c; cbn [CurrencyUtils.min_amounts]; try lia. contradiction.
  - intros [Hpos Hlt]. split.
    + apply Z.leb_gt. cbn [CurrencyUtils.min_amounts]. lia.
    + destruct (Z.leb_spec amount 0) as [Hle|_]; [lia|reflexivity].
Qed.
